(** * The reflection virtual machine of [packages/type/src/reflection/processor.ts]

    A shallow embedding of the stack machine that rebuilds runtime type
    nodes from packed programs: the decoder ([unpack]), the machine state
    ([Processor], [Frame], [Loop]), one iteration of the opcode loop
    ([step]), the loop itself ([iterate], [run]) and the entry point
    ([resolveRuntimeType]).

    Conventions of the embedding.
    - JavaScript values are the inductive [value].  A type node is a plain
      object; it is modelled by its [kind] and a record of the properties
      the processor reads or writes ([props]).  A property that is not set
      reads as [VUndefined].
    - Nodes are values.  The one object whose identity the machine relies
      on is the [resultType] of a processor (the result anchor): it lives in
      a store ([World.anchors]) and is referred to by [VAnchor].  Packed
      programs are identified by their identity too ([VPacked]) and carry
      their [__type] property in the store ([World.packs]).  The adjective
      opcodes, which assign a property of the object on top of the stack,
      replace that stack slot, or update the store when the slot holds an
      anchor; sharing between other nodes (such as the one [never] object
      that fills the fresh stack) is not represented.
    - The operand stack is a JavaScript array read and written at integer
      indices; it is a finite map from [Z], and a slot that was never
      written reads as [VUndefined].
    - Strings are sequences of code units below 256; numbers are integers.
    - What the engine raises by itself (reading a property of [undefined],
      iterating [undefined]) is [Throw TypeError]; [throw new Error(msg)] of
      the source is [Throw (Error msg)].
    - [unboxUnion], [flattenUnionTypes], [narrowOriginalLiteral] and
      [isType] are imported by the source from [./type], a module outside
      the files covered here; they are modelled from the specification.  The
      numbering of [ReflectionOp] and the predicate [isWithAnnotations] are
      parameters of the machine.
    - The opcodes [templateLiteral], [intersection], [extends],
      [indexAccess], [typeof] and [mappedType] need further declarations of
      [./type] and [./extends]; [classReference], [enum] and [infer] call
      functions stored in the pool or in nodes.  They yield [Outside], as
      does every use of a value in a way the embedding does not represent
      (a missing parameter used as a number, properties of functions). *)

From Stdlib Require Import ZArith String Ascii List Lia.
From stdpp Require Import base option list gmap strings.

Set Warnings "-register-all".

Local Open Scope Z_scope.

(** ** Enumerations *)

Module ReflectionKind.
Inductive t : Set :=
| never | any | unknown | void | object | string | number | boolean
| symbol | bigint | null | undefined | regexp | literal | templateLiteral
| property | method | function | parameter | promise | class
| typeParameter | enum | union | intersection | array | tuple | tupleMember
| enumMember | rest | objectLiteral | indexSignature | propertySignature
| methodSignature | infer.

Definition eqb (a b : t) : bool :=
  match a, b with
  | never, never | any, any | unknown, unknown | void, void
  | object, object | string, string | number, number | boolean, boolean
  | symbol, symbol | bigint, bigint | null, null | undefined, undefined
  | regexp, regexp | literal, literal | templateLiteral, templateLiteral
  | property, property | method, method | function, function
  | parameter, parameter | promise, promise | class, class
  | typeParameter, typeParameter | enum, enum | union, union
  | intersection, intersection | array, array | tuple, tuple
  | tupleMember, tupleMember | enumMember, enumMember | rest, rest
  | objectLiteral, objectLiteral | indexSignature, indexSignature
  | propertySignature, propertySignature
  | methodSignature, methodSignature | infer, infer => true
  | _, _ => false
  end.
End ReflectionKind.

Module ReflectionVisibility.
Inductive t : Set := public | protected | private.
End ReflectionVisibility.

Module ReflectionOp.
Inductive t : Set :=
| string | number | boolean | bigint | void | unknown | object | never
| undefined | symbol | null | any
| literal | templateLiteral | regexp | date
| uint8Array | int8Array | uint8ClampedArray | uint16Array | int16Array
| uint32Array | int32Array | float32Array | float64Array | bigInt64Array
| arrayBuffer
| class | parameter | classReference | enum | enumMember
| tuple | tupleMember | namedTupleMember | rest
| set | map | promise | union | intersection | function | array
| property | propertySignature | method | methodSignature
| optional | readonly | public | protected | private | abstract
| defaultValue | description | indexSignature | objectLiteral
| distribute | condition | jumpCondition | infer | extends | indexAccess
| typeof | keyof | var | mappedType | loads | arg | return_ | frame
| moveFrame | jump | call | inline | inlineCall | numberBrand
| typeParameter | typeParameterDefault.
End ReflectionOp.

(** ** Values and type nodes *)

Inductive field : Set :=
| f_name
| f_literal
| f_brand
| f_type
| f_index
| f_return
| f_parameters
| f_types
| f_arguments
| f_classType
| f_optional
| f_readonly
| f_visibility
| f_abstract
| f_default
| f_description
| f_typeName
| f_typeArguments.

Record props (V : Type) : Type := Props {
  p_name : V;
  p_literal : V;
  p_brand : V;
  p_type : V;
  p_index : V;
  p_return : V;
  p_parameters : V;
  p_types : V;
  p_arguments : V;
  p_classType : V;
  p_optional : V;
  p_readonly : V;
  p_visibility : V;
  p_abstract : V;
  p_default : V;
  p_description : V;
  p_typeName : V;
  p_typeArguments : V
}.

Arguments Props {V}.
Arguments p_name {V} _.
Arguments p_literal {V} _.
Arguments p_brand {V} _.
Arguments p_type {V} _.
Arguments p_index {V} _.
Arguments p_return {V} _.
Arguments p_parameters {V} _.
Arguments p_types {V} _.
Arguments p_arguments {V} _.
Arguments p_classType {V} _.
Arguments p_optional {V} _.
Arguments p_readonly {V} _.
Arguments p_visibility {V} _.
Arguments p_abstract {V} _.
Arguments p_default {V} _.
Arguments p_description {V} _.
Arguments p_typeName {V} _.
Arguments p_typeArguments {V} _.

Definition get_prop {V : Type} (f : field) (p : props V) : V :=
  match f with
  | f_name => p_name p
  | f_literal => p_literal p
  | f_brand => p_brand p
  | f_type => p_type p
  | f_index => p_index p
  | f_return => p_return p
  | f_parameters => p_parameters p
  | f_types => p_types p
  | f_arguments => p_arguments p
  | f_classType => p_classType p
  | f_optional => p_optional p
  | f_readonly => p_readonly p
  | f_visibility => p_visibility p
  | f_abstract => p_abstract p
  | f_default => p_default p
  | f_description => p_description p
  | f_typeName => p_typeName p
  | f_typeArguments => p_typeArguments p
  end.

Definition set_prop {V : Type} (f : field) (v : V) (p : props V) : props V :=
  match f with
  | f_name =>
      Props v (p_literal p) (p_brand p) (p_type p) (p_index p) (p_return p) (p_parameters p) (p_types p) (p_arguments p) (p_classType p) (p_optional p) (p_readonly p) (p_visibility p) (p_abstract p) (p_default p) (p_description p) (p_typeName p) (p_typeArguments p)
  | f_literal =>
      Props (p_name p) v (p_brand p) (p_type p) (p_index p) (p_return p) (p_parameters p) (p_types p) (p_arguments p) (p_classType p) (p_optional p) (p_readonly p) (p_visibility p) (p_abstract p) (p_default p) (p_description p) (p_typeName p) (p_typeArguments p)
  | f_brand =>
      Props (p_name p) (p_literal p) v (p_type p) (p_index p) (p_return p) (p_parameters p) (p_types p) (p_arguments p) (p_classType p) (p_optional p) (p_readonly p) (p_visibility p) (p_abstract p) (p_default p) (p_description p) (p_typeName p) (p_typeArguments p)
  | f_type =>
      Props (p_name p) (p_literal p) (p_brand p) v (p_index p) (p_return p) (p_parameters p) (p_types p) (p_arguments p) (p_classType p) (p_optional p) (p_readonly p) (p_visibility p) (p_abstract p) (p_default p) (p_description p) (p_typeName p) (p_typeArguments p)
  | f_index =>
      Props (p_name p) (p_literal p) (p_brand p) (p_type p) v (p_return p) (p_parameters p) (p_types p) (p_arguments p) (p_classType p) (p_optional p) (p_readonly p) (p_visibility p) (p_abstract p) (p_default p) (p_description p) (p_typeName p) (p_typeArguments p)
  | f_return =>
      Props (p_name p) (p_literal p) (p_brand p) (p_type p) (p_index p) v (p_parameters p) (p_types p) (p_arguments p) (p_classType p) (p_optional p) (p_readonly p) (p_visibility p) (p_abstract p) (p_default p) (p_description p) (p_typeName p) (p_typeArguments p)
  | f_parameters =>
      Props (p_name p) (p_literal p) (p_brand p) (p_type p) (p_index p) (p_return p) v (p_types p) (p_arguments p) (p_classType p) (p_optional p) (p_readonly p) (p_visibility p) (p_abstract p) (p_default p) (p_description p) (p_typeName p) (p_typeArguments p)
  | f_types =>
      Props (p_name p) (p_literal p) (p_brand p) (p_type p) (p_index p) (p_return p) (p_parameters p) v (p_arguments p) (p_classType p) (p_optional p) (p_readonly p) (p_visibility p) (p_abstract p) (p_default p) (p_description p) (p_typeName p) (p_typeArguments p)
  | f_arguments =>
      Props (p_name p) (p_literal p) (p_brand p) (p_type p) (p_index p) (p_return p) (p_parameters p) (p_types p) v (p_classType p) (p_optional p) (p_readonly p) (p_visibility p) (p_abstract p) (p_default p) (p_description p) (p_typeName p) (p_typeArguments p)
  | f_classType =>
      Props (p_name p) (p_literal p) (p_brand p) (p_type p) (p_index p) (p_return p) (p_parameters p) (p_types p) (p_arguments p) v (p_optional p) (p_readonly p) (p_visibility p) (p_abstract p) (p_default p) (p_description p) (p_typeName p) (p_typeArguments p)
  | f_optional =>
      Props (p_name p) (p_literal p) (p_brand p) (p_type p) (p_index p) (p_return p) (p_parameters p) (p_types p) (p_arguments p) (p_classType p) v (p_readonly p) (p_visibility p) (p_abstract p) (p_default p) (p_description p) (p_typeName p) (p_typeArguments p)
  | f_readonly =>
      Props (p_name p) (p_literal p) (p_brand p) (p_type p) (p_index p) (p_return p) (p_parameters p) (p_types p) (p_arguments p) (p_classType p) (p_optional p) v (p_visibility p) (p_abstract p) (p_default p) (p_description p) (p_typeName p) (p_typeArguments p)
  | f_visibility =>
      Props (p_name p) (p_literal p) (p_brand p) (p_type p) (p_index p) (p_return p) (p_parameters p) (p_types p) (p_arguments p) (p_classType p) (p_optional p) (p_readonly p) v (p_abstract p) (p_default p) (p_description p) (p_typeName p) (p_typeArguments p)
  | f_abstract =>
      Props (p_name p) (p_literal p) (p_brand p) (p_type p) (p_index p) (p_return p) (p_parameters p) (p_types p) (p_arguments p) (p_classType p) (p_optional p) (p_readonly p) (p_visibility p) v (p_default p) (p_description p) (p_typeName p) (p_typeArguments p)
  | f_default =>
      Props (p_name p) (p_literal p) (p_brand p) (p_type p) (p_index p) (p_return p) (p_parameters p) (p_types p) (p_arguments p) (p_classType p) (p_optional p) (p_readonly p) (p_visibility p) (p_abstract p) v (p_description p) (p_typeName p) (p_typeArguments p)
  | f_description =>
      Props (p_name p) (p_literal p) (p_brand p) (p_type p) (p_index p) (p_return p) (p_parameters p) (p_types p) (p_arguments p) (p_classType p) (p_optional p) (p_readonly p) (p_visibility p) (p_abstract p) (p_default p) v (p_typeName p) (p_typeArguments p)
  | f_typeName =>
      Props (p_name p) (p_literal p) (p_brand p) (p_type p) (p_index p) (p_return p) (p_parameters p) (p_types p) (p_arguments p) (p_classType p) (p_optional p) (p_readonly p) (p_visibility p) (p_abstract p) (p_default p) (p_description p) v (p_typeArguments p)
  | f_typeArguments =>
      Props (p_name p) (p_literal p) (p_brand p) (p_type p) (p_index p) (p_return p) (p_parameters p) (p_types p) (p_arguments p) (p_classType p) (p_optional p) (p_readonly p) (p_visibility p) (p_abstract p) (p_default p) (p_description p) (p_typeName p) v
  end.

(** JavaScript values that occur in literal pools, on the operand stack and
    in node properties.  [VFunction tn r] is a nullary function of the pool
    that returns [r]; [tn] is what
    [toString().replace('() => __Ω', '')] yields for it.  [VPacked p] is the
    packed program array with identity [p], [VClassType c] a class handle
    such as [Object] or [Date], [VAnchor l] the [resultType] object [l]. *)
Inductive value : Type :=
| VUndefined
| VNumber (n : Z)
| VString (s : string)
| VBoolean (b : bool)
| VVisibility (v : ReflectionVisibility.t)
| VArray (l : list value)
| VFunction (typeName : string) (result : value)
| VPacked (p : nat)
| VClassType (c : string)
| VNode (kind : ReflectionKind.t) (p : props value)
| VAnchor (l : nat).

Definition no_props : props value :=
  Props VUndefined VUndefined VUndefined VUndefined VUndefined VUndefined
        VUndefined VUndefined VUndefined VUndefined VUndefined VUndefined
        VUndefined VUndefined VUndefined VUndefined VUndefined VUndefined.

Definition assign (fs : list (field * value)) (p : props value) : props value :=
  fold_left (fun q fv => set_prop (fst fv) (snd fv) q) fs p.

(** The object literal [{kind: k, f1: v1, ...}]. *)
Definition node (k : ReflectionKind.t) (fs : list (field * value)) : value :=
  VNode k (assign fs no_props).

(** Truthiness of a value in a condition. *)
Definition truthy (v : value) : bool :=
  match v with
  | VUndefined => false
  | VNumber n => negb (n =? 0)
  | VString s => negb (String.eqb s "")
  | VBoolean b => b
  | _ => true
  end.

(** [isFunction(v) ? v() : v] *)
Definition call_if_function (v : value) : value :=
  match v with
  | VFunction _ r => r
  | _ => v
  end.

(** ** Outcomes *)

Inductive failure : Type :=
| Error (msg : string)
| TypeError.

(** [Outside]: the run left the fragment that is embedded (a helper that is
    not in the sources, a value shape that is not modelled).  [OutOfFuel]:
    the bound on iterations and nested evaluations was reached. *)
Inductive outcome (A : Type) : Type :=
| Ret (a : A)
| Throw (e : failure)
| Outside
| OutOfFuel.

Arguments Ret {A} a.
Arguments Throw {A} e.
Arguments Outside {A}.
Arguments OutOfFuel {A}.

#[global] Instance outcome_ret : MRet outcome := @Ret.
#[global] Instance outcome_bind : MBind outcome :=
  fun A B f m =>
    match m with
    | Ret a => f a
    | Throw e => Throw e
    | Outside => Outside
    | OutOfFuel => OutOfFuel
    end.

(** ** Arrays indexed by integers *)

Definition lookupZ {A : Type} (l : list A) (i : Z) : option A :=
  if i <? 0 then None else l !! Z.to_nat i.

(** [initialStack[ref]], where [ref] is what [eatParameter] returned. *)
Definition pool_get (pool : list value) (ref : option Z) : value :=
  match ref with
  | Some i => default VUndefined (lookupZ pool i)
  | None => VUndefined
  end.

Definition stack_get (stack : gmap Z value) (i : Z) : value :=
  default VUndefined (stack !! i).

(** [stack.slice(from, to)] for [0 <= from]; the machine never slices
    outside the allocated part of its stack. *)
Definition slice (stack : gmap Z value) (from to : Z) : list value :=
  stack_get stack <$> seqZ from (to - from).

(** ** The decoder *)

Module PackStruct.
Record t : Type := mk { ops : list Z; stack : list value }.
End PackStruct.

Definition charCode (c : ascii) : Z := Z.of_nat (nat_of_ascii c).

Fixpoint unpackOps (decodedOps : list Z) (encodedOPs : string) : list Z :=
  match encodedOPs with
  | EmptyString => decodedOps
  | String c rest => unpackOps (decodedOps ++ [charCode c - 33]) rest
  end.

Definition unpack (pack : list value) : PackStruct.t :=
  match last pack with
  | Some (VString encodedOPs) =>
      let stack :=
        if 1 <? Z.of_nat (length pack) then take (length pack - 1) pack else [] in
      PackStruct.mk (unpackOps [] encodedOPs) stack
  | _ => PackStruct.mk [] []
  end.

(** ** Helpers of [./type], modelled from the specification *)

(** Modelled from the spec: [narrowOriginalLiteral] is declared in [./type],
    outside the files covered here.  Section 4.2: "returns t unchanged unless
    it is a widening candidate (design choice: preserve the caller's explicit
    literal when the program recorded one)".  No opcode of the processor
    records an original literal on a node, and the nodes of this embedding
    carry none, so no value is a widening candidate. *)
Definition narrowOriginalLiteral (t : value) : value := t.

(** Modelled from the spec: [unboxUnion] is declared in [./type].  Section
    4.2: "if union has exactly one member, return that member; otherwise
    return the union". *)
Definition unboxUnion (u : value) : value :=
  match u with
  | VNode ReflectionKind.union p =>
      match p_types p with
      | VArray [member] => member
      | _ => u
      end
  | _ => u
  end.

(** Modelled from the spec: [flattenUnionTypes] is declared in [./type].
    Section 4.2: "recursively inline nested unions; drop never".  A result
    anchor is never a union or [never] (it starts as [any] and only [class]
    and [objectLiteral] nodes are assigned to it), so it is kept as it is. *)
Fixpoint flattenUnionType (t : value) : list value :=
  match t with
  | VNode ReflectionKind.union p =>
      match p_types p with
      | VArray members =>
          (fix members_of (l : list value) : list value :=
             match l with
             | [] => []
             | m :: rest => flattenUnionType m ++ members_of rest
             end) members
      | _ => []
      end
  | VNode ReflectionKind.never _ => []
  | _ => [t]
  end.

Definition flattenUnionTypes (types : list value) : list value :=
  concat (flattenUnionType <$> types).

(** Modelled from the spec: [isType] is declared in [./type]; the
    specification uses it only by name.  Here: the value is a type node. *)
Definition isType (v : value) : bool :=
  match v with
  | VNode _ _ | VAnchor _ => true
  | _ => false
  end.

(** ** The object store *)

Module Packed.
(** A packed program array: its elements and its [__type] property. *)
Record t : Type := mk { items : list value; __type : value }.
End Packed.

Module World.
Record t : Type := mk {
  anchors : gmap nat (ReflectionKind.t * props value);
  packs : gmap nat Packed.t
}.

Definition with_anchors (a : gmap nat (ReflectionKind.t * props value)) (w : t) : t :=
  mk a (packs w).

Definition with_packs (p : gmap nat Packed.t) (w : t) : t :=
  mk (anchors w) p.
End World.

(** [v.kind] *)
Definition get_kind (w : World.t) (v : value) : outcome (option ReflectionKind.t) :=
  match v with
  | VUndefined => Throw TypeError
  | VNode k _ => Ret (Some k)
  | VAnchor l =>
      match World.anchors w !! l with
      | Some (k, _) => Ret (Some k)
      | None => Outside
      end
  | _ => Ret None
  end.

Definition kind_is (w : World.t) (v : value) (k : ReflectionKind.t) : outcome bool :=
  o ← get_kind w v;
  Ret (match o with Some k' => ReflectionKind.eqb k' k | None => false end).

(** [v.f] for one of the node properties [f]. *)
Definition get_field (w : World.t) (v : value) (f : field) : outcome value :=
  match v with
  | VUndefined => Throw TypeError
  | VNode _ p => Ret (get_prop f p)
  | VAnchor l =>
      match World.anchors w !! l with
      | Some (_, p) => Ret (get_prop f p)
      | None => Outside
      end
  | VNumber _ | VString _ | VBoolean _ | VVisibility _ | VArray _ | VPacked _ =>
      Ret VUndefined
  | VFunction _ _ | VClassType _ => Outside
  end.

(** [v.f = x]; the updated object is returned with the store. *)
Definition set_field (w : World.t) (v : value) (f : field) (x : value)
  : outcome (value * World.t) :=
  match v with
  | VUndefined => Throw TypeError
  | VNode k p => Ret (VNode k (set_prop f x p), w)
  | VAnchor l =>
      match World.anchors w !! l with
      | Some (k, p) =>
          Ret (v, World.with_anchors (<[l := (k, set_prop f x p)]> (World.anchors w)) w)
      | None => Outside
      end
  | _ => Outside
  end.

(** Iteration over [v] with [for ... of]. *)
Definition as_array (v : value) : outcome (list value) :=
  match v with
  | VArray l => Ret l
  | VUndefined => Throw TypeError
  | _ => Outside
  end.

(** ** Machine state *)

Module Loop.
Record t : Type := mk { types : value; i : Z }.

(** [new Loop(fromType)] *)
Definition new (w : World.t) (fromType : value) : outcome t :=
  u ← kind_is w fromType ReflectionKind.union;
  if u : bool then ts ← get_field w fromType f_types; Ret (mk ts 0)
  else Ret (mk (VArray [fromType]) 0).

(** [next()]: the element at the cursor, and the advanced cursor. *)
Definition next (l : t) : outcome (value * t) :=
  ts ← as_array (types l);
  Ret (default VUndefined (lookupZ ts (i l)), mk (types l) (i l + 1)).
End Loop.

Module Frame.
Inductive t : Type := mk {
  index : Z;
  startIndex : Z;
  variables : Z;
  inputs : list value;
  previous : option t;
  mappedType : option Loop.t;
  distributiveLoop : option Loop.t
}.

Definition with_variables (n : Z) (f : t) : t :=
  mk (index f) (startIndex f) n (inputs f) (previous f) (mappedType f) (distributiveLoop f).

Definition with_distributiveLoop (l : option Loop.t) (f : t) : t :=
  mk (index f) (startIndex f) (variables f) (inputs f) (previous f) (mappedType f) l.

(** [frame.previous!. ... .previous!], [n] times. *)
Fixpoint ancestor (n : nat) (f : t) : outcome t :=
  match n with
  | O => Ret f
  | S n' =>
      match previous f with
      | Some g => ancestor n' g
      | None => Throw TypeError
      end
  end.
End Frame.

(** ** The registry *)

(** [ProcessorRegistry]: a map from packed programs to the processor that
    evaluates them.  All that is ever read of a registered processor is its
    [resultType], so the registry maps the identity of a program to the
    anchor of its processor. *)
Module ProcessorRegistry.
Definition get (t : nat) (registry : gmap nat nat) : option nat := registry !! t.

Definition register (t : nat) (processor : nat) (registry : gmap nat nat) : gmap nat nat :=
  <[t := processor]> registry.

Definition delete (t : nat) (registry : gmap nat nat) : gmap nat nat :=
  base.delete t registry.
End ProcessorRegistry.

(** ** The processor *)

Module Processor.

Record t : Type := mk {
  stack : gmap Z value;
  stackPointer : Z;
  frame : Frame.t;
  program : Z;
  resultType : nat;
  forType : value;
  registry : gmap nat nat;
  world : World.t
}.

Definition with_stack (s : gmap Z value) (p : t) : t :=
  mk s (stackPointer p) (frame p) (program p) (resultType p) (forType p) (registry p) (world p).

Definition with_stackPointer (sp : Z) (p : t) : t :=
  mk (stack p) sp (frame p) (program p) (resultType p) (forType p) (registry p) (world p).

Definition with_frame (f : Frame.t) (p : t) : t :=
  mk (stack p) (stackPointer p) f (program p) (resultType p) (forType p) (registry p) (world p).

Definition with_program (pc : Z) (p : t) : t :=
  mk (stack p) (stackPointer p) (frame p) pc (resultType p) (forType p) (registry p) (world p).

Definition with_registry (r : gmap nat nat) (p : t) : t :=
  mk (stack p) (stackPointer p) (frame p) (program p) (resultType p) (forType p) r (world p).

Definition with_world (w : World.t) (p : t) : t :=
  mk (stack p) (stackPointer p) (frame p) (program p) (resultType p) (forType p) (registry p) w.

Definition newArray {A : Type} (init : A) (items : nat) : list A :=
  replicate items init.

(** [new Processor(forType, registry)] in the store [w]: the operand stack
    holds 128 [never] nodes, and a fresh [{kind: any}] object is allocated
    for [resultType]. *)
Definition new (forType : value) (registry : gmap nat nat) (w : World.t) : t :=
  let l := fresh (dom (World.anchors w)) in
  mk (map_seqZ 0 (newArray (node ReflectionKind.never []) 128))
     (-1)
     (Frame.mk 0 (-1) 0 [] None None None)
     0
     l forType registry
     (World.with_anchors (<[l := (ReflectionKind.any, no_props)]> (World.anchors w)) w).

(** *** Stack and frame primitives *)

Definition push (entry : value) (p : t) : t :=
  with_stackPointer (stackPointer p + 1)
    (with_stack (<[stackPointer p + 1 := entry]> (stack p)) p).

Definition pop (p : t) : outcome (value * t) :=
  if stackPointer p <? 0 then Throw (Error "Stack empty")
  else Ret (stack_get (stack p) (stackPointer p),
            with_stackPointer (stackPointer p - 1) p).

Definition pushFrame (p : t) : t :=
  with_frame
    (Frame.mk (Frame.index (frame p) + 1) (stackPointer p) 0 [] (Some (frame p)) None None)
    p.

Definition popFrame (p : t) : list value * t :=
  let result :=
    slice (stack p)
          (Frame.startIndex (frame p) + Frame.variables (frame p) + 1)
          (stackPointer p + 1) in
  let p1 := with_stackPointer (Frame.startIndex (frame p)) p in
  (result,
   match Frame.previous (frame p1) with
   | Some f => with_frame f p1
   | None => p1
   end).

(** [call(program, jumpBackTo)] *)
Definition call (target : Z) (jumpBackTo : Z) (p : t) : t :=
  with_program (target - 1)
    (pushFrame (push (VNumber (program p + jumpBackTo)) p)).

Definition returnFrame (p : t) : outcome t :=
  '(returnValue, p1) ← pop p;
  let returnAddress := stack_get (stack p1) (Frame.startIndex (frame p1)) in
  let p2 := with_stackPointer (Frame.startIndex (frame p1) - 1) p1 in
  let p3 := push returnValue p2 in
  let p4 :=
    match returnAddress with
    | VNumber a => with_program (a - 1) p3
    | _ => p3
    end in
  Ret (match Frame.previous (frame p4) with
       | Some f => with_frame f p4
       | None => p4
       end).

Definition pushType (type : value) (p : t) : t := push type p.

(** [ops[++this.program]] *)
Definition eatParameter (ops : list Z) (p : t) : option Z * t :=
  let p1 := with_program (program p + 1) p in
  (lookupZ ops (program p1), p1).

(** A parameter that is used as a number must be there: [undefined] would
    turn the program counter into [NaN]. *)
Definition need (o : option Z) : outcome Z :=
  match o with
  | Some z => Ret z
  | None => Outside
  end.

Definition number_or_undefined (o : option Z) : value :=
  match o with
  | Some z => VNumber z
  | None => VUndefined
  end.

(** [this.stack[this.stackPointer].f = x] *)
Definition set_top (f : field) (x : value) (p : t) : outcome t :=
  '(v, w) ← set_field (world p) (stack_get (stack p) (stackPointer p)) f x;
  Ret (with_world w (with_stack (<[stackPointer p := v]> (stack p)) p)).

(** [Object.assign(this.resultType, {kind: k, fs...})] *)
Definition assign_resultType (k : ReflectionKind.t) (fs : list (field * value)) (p : t)
  : outcome t :=
  match World.anchors (world p) !! resultType p with
  | Some (_, q) =>
      Ret (with_world
             (World.with_anchors
                (<[resultType p := (k, assign fs q)]> (World.anchors (world p)))
                (world p)) p)
  | None => Outside
  end.

(** *** Loops inside the opcode handlers *)

Definition is_string (v : value) (s : string) : bool :=
  match v with
  | VString s' => String.eqb s' s
  | _ => false
  end.

Definition is_undefined (v : value) : bool :=
  match v with
  | VUndefined => true
  | _ => false
  end.

(** The property a constructor parameter is projected to. *)
Definition parameter_property (w : World.t) (parameter : value) : outcome (list value) :=
  visibility ← get_field w parameter f_visibility;
  if is_undefined visibility then Ret []
  else
    name ← get_field w parameter f_name;
    type ← get_field w parameter f_type;
    optional ← get_field w parameter f_optional;
    readonly ← get_field w parameter f_readonly;
    let fs := [(f_name, name); (f_visibility, visibility); (f_type, type)] in
    let fs := if truthy optional then fs ++ [(f_optional, VBoolean true)] else fs in
    let fs := if truthy readonly then fs ++ [(f_readonly, VBoolean true)] else fs in
    Ret [node ReflectionKind.property fs].

Fixpoint parameter_properties (w : World.t) (parameters : list value)
  : outcome (list value) :=
  match parameters with
  | [] => Ret []
  | parameter :: rest =>
      here ← parameter_property w parameter;
      there ← parameter_properties w rest;
      Ret (here ++ there)
  end.

(** The scan of the [class] opcode over the popped members: the properties
    pushed to [types] for the first method named [constructor]. *)
Fixpoint constructor_properties (w : World.t) (members : list value)
  : outcome (list value) :=
  match members with
  | [] => Ret []
  | member :: rest =>
      is_method ← kind_is w member ReflectionKind.method;
      name ← (if is_method : bool then get_field w member f_name else Ret VUndefined);
      if is_method && is_string name "constructor" then
        parameters ← get_field w member f_parameters;
        l ← as_array parameters;
        parameter_properties w l
      else constructor_properties w rest
  end.

(** [types.find(v => pred(v.kind))] *)
Fixpoint find_kind (w : World.t) (pred : option ReflectionKind.t -> bool) (types : list value)
  : outcome value :=
  match types with
  | [] => Ret VUndefined
  | v :: rest =>
      k ← get_kind w v;
      if pred k then Ret v else find_kind w pred rest
  end.

Definition is_kind (k : ReflectionKind.t) (o : option ReflectionKind.t) : bool :=
  match o with
  | Some k' => ReflectionKind.eqb k' k
  | None => false
  end.

(** The optional reduction of [property] and [propertySignature]: the type
    to store and the [isOptional] flag. *)
Definition reduce_optional (w : World.t) (type : value) : outcome (value * bool) :=
  is_union ← kind_is w type ReflectionKind.union;
  if is_union : bool then
    types ← get_field w type f_types;
    l ← as_array types;
    if Z.of_nat (length l) =? 2 then
      undefinedType ← find_kind w (is_kind ReflectionKind.undefined) l;
      restType ← find_kind w
        (fun k => negb (is_kind ReflectionKind.null k) && negb (is_kind ReflectionKind.undefined k)) l;
      if truthy restType && truthy undefinedType then Ret (restType, true)
      else Ret (type, false)
    else Ret (type, false)
  else Ret (type, false).

(** The literals [keyof] collects from the members of an object literal or
    class. *)
Fixpoint keyof_members (w : World.t) (members : list value) : outcome (list value) :=
  match members with
  | [] => Ret []
  | member :: rest =>
      k ← get_kind w member;
      here ←
        (if is_kind ReflectionKind.propertySignature k || is_kind ReflectionKind.property k then
           name ← get_field w member f_name;
           Ret [node ReflectionKind.literal [(f_literal, name)]]
         else if is_kind ReflectionKind.methodSignature k || is_kind ReflectionKind.method k then
           name ← get_field w member f_name;
           Ret [node ReflectionKind.literal [(f_literal, name)]]
         else Ret []);
      there ← keyof_members w rest;
      Ret (here ++ there)
  end.

(** The members the [tuple] opcode collects. *)
Fixpoint tuple_members (w : World.t) (stackTypes : list value) : outcome (list value) :=
  match stackTypes with
  | [] => Ret []
  | type :: rest =>
      is_member ← kind_is w type ReflectionKind.tupleMember;
      let resolved :=
        if is_member : bool then type else node ReflectionKind.tupleMember [(f_type, type)] in
      inner ← get_field w resolved f_type;
      is_rest ← kind_is w inner ReflectionKind.rest;
      here ←
        (if is_rest : bool then
           spread ← get_field w inner f_type;
           is_tuple ← kind_is w spread ReflectionKind.tuple;
           if is_tuple : bool then
             subs ← get_field w spread f_types;
             as_array subs
           else Ret [resolved]
         else Ret [resolved]);
      there ← tuple_members w rest;
      Ret (here ++ there)
  end.

(** The argument loop of [inlineCall]. *)
Fixpoint collect_inputs (initialInputs : list value) (count : nat) (i : Z)
    (inputs : list value) (p : t) : outcome (list value * t) :=
  match count with
  | O => Ret (inputs, p)
  | S count' =>
      '(input, p1) ← pop p;
      is_never ← kind_is (world p1) input ReflectionKind.never;
      let given := default VUndefined (lookupZ initialInputs i) in
      let input := if is_never && truthy given then given else input in
      collect_inputs initialInputs count' (i + 1) (input :: inputs) p1
  end.

Definition last_or {A : Type} (l : list A) (d : A) : A :=
  match last l with
  | Some x => x
  | None => d
  end.

(** [new Processor(...).run(ops, initialStack, initialInputs)] as a method of
    an already constructed processor. *)
Definition evaluator : Type :=
  t -> list Z -> list value -> list value -> outcome (value * t).

Section Machine.

(** The numbering of [ReflectionOp] and the predicate [isWithAnnotations]
    are declared in [./type]; the machine takes them as parameters. *)
Variable opcode : Z -> option ReflectionOp.t.
Variable isWithAnnotations : ReflectionKind.t -> bool.

Definition with_annotations (w : World.t) (result : value) : outcome bool :=
  k ← get_kind w result;
  Ret (match k with Some k' => isWithAnnotations k' | None => false end).

Definition typeName_of (pOrFn : value) : value :=
  match pOrFn with
  | VFunction tn _ => VString tn
  | _ => VString ""
  end.

(** [resolveRuntimeType(o, args, registry)] for a packed program [o]. *)
Definition resolveRuntimeType (run : evaluator) (o : value) (args : list value)
    (registry : option (gmap nat nat)) (w : World.t)
  : outcome (value * option (gmap nat nat) * World.t) :=
  match o with
  | VPacked id =>
      match World.packs w !! id with
      | None => Outside
      | Some pk =>
          if truthy (Packed.__type pk) then Ret (Packed.__type pk, registry, w)
          else
            match registry ≫= ProcessorRegistry.get id with
            | Some existing => Ret (VAnchor existing, registry, w)
            | None =>
                let packStruct := unpack (Packed.items pk) in
                let processor := new o (default ∅ registry) w in
                let processor :=
                  match registry with
                  | Some r =>
                      with_registry
                        (ProcessorRegistry.register id (resultType processor) r) processor
                  | None => processor
                  end in
                '(type, processor) ←
                  run processor (PackStruct.ops packStruct) (PackStruct.stack packStruct) args;
                let registry :=
                  match registry with
                  | Some _ => Some (ProcessorRegistry.delete id (Processor.registry processor))
                  | None => None
                  end in
                if isType type then
                  let w := world processor in
                  let w :=
                    World.with_packs
                      (<[id := Packed.mk (Packed.items pk) type]> (World.packs w)) w in
                  Ret (type, registry, w)
                else Throw (Error "No type returned from runtime type program")
            end
      end
  | _ => Outside
  end.

(** *** One opcode *)

Section Exec.

Variable run : evaluator.
Variable ops : list Z.
Variable initialStack : list value.
Variable initialInputs : list value.

(** [{kind: class, classType: c, types: []}] and the like. *)
Definition builtin_class (c : string) : value :=
  node ReflectionKind.class [(f_classType, VClassType c); (f_types, VArray [])].

Definition exec_class (p : t) : outcome t :=
  let '(types, p1) := popFrame p in
  extra ← constructor_properties (world p1) types;
  let types := types ++ extra in
  let args := List.filter isType (Frame.inputs (frame p1)) in
  let fs := [(f_classType, VClassType "Object"); (f_types, VArray types)] in
  '(t, p2) ←
    (if program p1 + 1 =? Z.of_nat (length ops) then
       p2 ← assign_resultType ReflectionKind.class fs p1;
       Ret (VAnchor (resultType p2), p2)
     else Ret (node ReflectionKind.class fs, p1));
  '(t, w) ←
    (if negb (Z.of_nat (length args) =? 0) then set_field (world p2) t f_arguments (VArray args)
     else Ret (t, world p2));
  Ret (pushType t (with_world w p2)).

Definition exec_objectLiteral (p : t) : outcome t :=
  let '(types, p1) := popFrame p in
  let fs := [(f_types, VArray types)] in
  '(t, p2) ←
    (if program p1 + 1 =? Z.of_nat (length ops) then
       p2 ← assign_resultType ReflectionKind.objectLiteral fs p1;
       Ret (VAnchor (resultType p2), p2)
     else Ret (node ReflectionKind.objectLiteral fs, p1));
  Ret (pushType t p2).

Definition exec_property (signature : bool) (p : t) : outcome t :=
  let '(ref, p1) := eatParameter ops p in
  let name := pool_get initialStack ref in
  '(type, p2) ← pop p1;
  '(type, isOptional) ← reduce_optional (world p2) type;
  let fs := [(f_type, type); (f_name, call_if_function name)] in
  let fs := if isOptional : bool then fs ++ [(f_optional, VBoolean true)] else fs in
  let fs :=
    if signature then fs
    else fs ++ [(f_visibility, VVisibility ReflectionVisibility.public)] in
  Ret (pushType
         (node (if signature then ReflectionKind.propertySignature else ReflectionKind.property) fs)
         p2).

Definition exec_method (signature : bool) (p : t) : outcome t :=
  let '(ref, p1) := eatParameter ops p in
  let name := pool_get initialStack ref in
  let '(types, p2) := popFrame p1 in
  let returnType := last_or types (node ReflectionKind.any []) in
  let parameters :=
    if 1 <? Z.of_nat (length types) then take (length types - 1) types else [] in
  Ret (pushType
         (if signature then
            node ReflectionKind.methodSignature
                 [(f_name, name); (f_return, returnType); (f_parameters, VArray parameters)]
          else
            node ReflectionKind.method
                 [(f_visibility, VVisibility ReflectionVisibility.public); (f_name, name);
                  (f_return, returnType); (f_parameters, VArray parameters)])
         p2).

Definition exec_function (p : t) : outcome t :=
  let '(types, p1) := popFrame p in
  let '(ref, p2) := eatParameter ops p1 in
  let name := pool_get initialStack ref in
  let returnType := last_or types (node ReflectionKind.any []) in
  let parameters :=
    if 1 <? Z.of_nat (length types) then take (length types - 1) types else [] in
  Ret (pushType
         (node ReflectionKind.function
               [(f_name, if truthy name then name else VUndefined);
                (f_return, returnType); (f_parameters, VArray parameters)])
         p2).

Definition exec_typeParameter (withDefault : bool) (p : t) : outcome t :=
  let '(nameRef, p1) := eatParameter ops p in
  let type :=
    default VUndefined (lookupZ (Frame.inputs (frame p1)) (Frame.variables (frame p1))) in
  let p2 :=
    with_frame (Frame.with_variables (Frame.variables (frame p1) + 1) (frame p1)) p1 in
  '(type, p3) ←
    (if withDefault then
       '(defaultValue, p3) ← pop p2;
       Ret (if is_undefined type then defaultValue else type, p3)
     else Ret (type, p2));
  if is_undefined type then
    Ret (pushType
           (node ReflectionKind.typeParameter [(f_name, pool_get initialStack nameRef)]) p3)
  else Ret (pushType type p3).

(** The first block of [distribute]: on re-entry the result of the last
    iteration is popped and pushed back unless it is [never]; on first entry
    the type to distribute over is popped and the loop created. *)
Definition distribute_enter (p1 : t) : outcome t :=
  match Frame.distributiveLoop (frame p1) with
  | Some _ =>
      '(type, q) ← pop p1;
      is_never ← kind_is (world q) type ReflectionKind.never;
      Ret (if is_never : bool then q else push type q)
  | None =>
      '(distributeOver, q) ← pop p1;
      loop ← Loop.new (world q) distributeOver;
      Ret (with_frame (Frame.with_distributiveLoop (Some loop) (frame q)) q)
  end.

(** The second block of [distribute]: the next member is stored in the
    first slot of the frame and the subprogram called, or the frame is
    popped into a union when the loop is exhausted. *)
Definition distribute_next (target : option Z) (p2 : t) : outcome t :=
  match Frame.distributiveLoop (frame p2) with
  | None => Outside
  | Some loop =>
      '(next, loop) ← Loop.next loop;
      let p3 := with_frame (Frame.with_distributiveLoop (Some loop) (frame p2)) p2 in
      if is_undefined next then
        let '(types, p4) := popFrame p3 in
        Ret (push (unboxUnion
                     (node ReflectionKind.union [(f_types, VArray (flattenUnionTypes types))]))
                  p4)
      else
        target ← need target;
        Ret (call target (-1)
               (with_stack (<[Frame.startIndex (frame p3) + 1 := next]> (stack p3)) p3))
  end.

Definition exec_distribute (p : t) : outcome t :=
  let '(target, p1) := eatParameter ops p in
  p2 ← distribute_enter p1;
  distribute_next target p2.

Definition exec_keyof (p : t) : outcome t :=
  '(type, p1) ← pop p;
  is_objectLiteral ← kind_is (world p1) type ReflectionKind.objectLiteral;
  is_class ← kind_is (world p1) type ReflectionKind.class;
  if is_objectLiteral || is_class then
    types ← get_field (world p1) type f_types;
    members ← as_array types;
    literals ← keyof_members (world p1) members;
    Ret (push (node ReflectionKind.union [(f_types, VArray literals)]) p1)
  else Ret (push (node ReflectionKind.union [(f_types, VArray [])]) p1).

Definition exec_loads (p : t) : outcome t :=
  let '(frameOffset, p1) := eatParameter ops p in
  let '(stackEntryIndex, p2) := eatParameter ops p1 in
  current ← Frame.ancestor (Z.to_nat (default 0 frameOffset)) (frame p2);
  Ret (push
         (match stackEntryIndex with
          | Some i => stack_get (stack p2) (Frame.startIndex current + 1 + i)
          | None => VUndefined
          end)
         p2).

(** The tail shared by [inline] and [inlineCall] once the referenced
    program has been evaluated. *)
Definition annotate (pOrFn : value) (typeArguments : option (list value))
    (result : value) (p : t) : outcome (value * t) :=
  annotated ← with_annotations (world p) result;
  if annotated : bool then
    '(result, w) ← set_field (world p) result f_typeName (typeName_of pOrFn);
    match typeArguments with
    | Some inputs =>
        '(result, w) ← set_field w result f_typeArguments (VArray inputs);
        Ret (result, with_world w p)
    | None => Ret (result, with_world w p)
    end
  else Ret (result, p).

Definition exec_inline (p : t) : outcome t :=
  let '(pPosition, p1) := eatParameter ops p in
  let pOrFn := pool_get initialStack pPosition in
  let target := call_if_function pOrFn in
  match target with
  | VNumber _ => Ret (push (VAnchor (resultType p1)) p1)
  | _ =>
      '(result, registry, w) ←
        resolveRuntimeType run target [] (Some (registry p1)) (world p1);
      let p2 := with_world w (with_registry (default ∅ registry) p1) in
      '(result, p3) ← annotate pOrFn None result p2;
      Ret (push result p3)
  end.

Definition exec_inlineCall (p : t) : outcome t :=
  let '(pPosition, p1) := eatParameter ops p in
  let '(argumentSize, p2) := eatParameter ops p1 in
  argumentSize ← need argumentSize;
  '(inputs, p3) ← collect_inputs initialInputs (Z.to_nat argumentSize) 0 [] p2;
  let pOrFn := pool_get initialStack pPosition in
  let target := call_if_function pOrFn in
  match target with
  | VNumber _ =>
      if argumentSize =? 0 then Ret (push (VAnchor (resultType p3)) p3)
      else
        '(result, processor) ←
          run (new (forType p3) (registry p3) (world p3)) ops initialStack inputs;
        let p4 := with_world (world processor) (with_registry (registry processor) p3) in
        '(result, p5) ← annotate pOrFn (Some inputs) result p4;
        Ret (push result p5)
  | VPacked id =>
      match World.packs (world p3) !! id with
      | None => Outside
      | Some pk =>
          let pack := unpack (Packed.items pk) in
          '(result, processor) ←
            run (new target (registry p3) (world p3))
                (PackStruct.ops pack) (PackStruct.stack pack) inputs;
          let p4 := with_world (world processor) (with_registry (registry processor) p3) in
          '(result, p5) ← annotate pOrFn (Some inputs) result p4;
          Ret (push result p5)
      end
  | VUndefined => Throw TypeError
  | _ => Outside
  end.

(** The body of one [case] of the [switch]; [program p] is the index of
    [op] in [ops]. *)
Definition exec (op : ReflectionOp.t) (p : t) : outcome t :=
  match op with
  | ReflectionOp.string => Ret (pushType (node ReflectionKind.string []) p)
  | ReflectionOp.number => Ret (pushType (node ReflectionKind.number []) p)
  | ReflectionOp.numberBrand =>
      let '(ref, p1) := eatParameter ops p in
      Ret (pushType (node ReflectionKind.number [(f_brand, number_or_undefined ref)]) p1)
  | ReflectionOp.boolean => Ret (pushType (node ReflectionKind.boolean []) p)
  | ReflectionOp.void => Ret (pushType (node ReflectionKind.void []) p)
  | ReflectionOp.unknown => Ret (pushType (node ReflectionKind.unknown []) p)
  | ReflectionOp.object => Ret (pushType (node ReflectionKind.object []) p)
  | ReflectionOp.never => Ret (pushType (node ReflectionKind.never []) p)
  | ReflectionOp.undefined => Ret (pushType (node ReflectionKind.undefined []) p)
  | ReflectionOp.bigint => Ret (pushType (node ReflectionKind.bigint []) p)
  | ReflectionOp.symbol => Ret (pushType (node ReflectionKind.symbol []) p)
  | ReflectionOp.null => Ret (pushType (node ReflectionKind.null []) p)
  | ReflectionOp.any => Ret (pushType (node ReflectionKind.any []) p)
  | ReflectionOp.literal =>
      let '(ref, p1) := eatParameter ops p in
      Ret (pushType (node ReflectionKind.literal [(f_literal, pool_get initialStack ref)]) p1)
  | ReflectionOp.templateLiteral => Outside
  | ReflectionOp.date => Ret (pushType (builtin_class "Date") p)
  | ReflectionOp.uint8Array => Ret (pushType (builtin_class "Uint8Array") p)
  | ReflectionOp.int8Array => Ret (pushType (builtin_class "Int8Array") p)
  | ReflectionOp.uint8ClampedArray => Ret (pushType (builtin_class "Uint8ClampedArray") p)
  | ReflectionOp.uint16Array => Ret (pushType (builtin_class "Uint16Array") p)
  | ReflectionOp.int16Array => Ret (pushType (builtin_class "Int16Array") p)
  | ReflectionOp.uint32Array => Ret (pushType (builtin_class "Uint32Array") p)
  | ReflectionOp.int32Array => Ret (pushType (builtin_class "Int32Array") p)
  | ReflectionOp.float32Array => Ret (pushType (builtin_class "Float32Array") p)
  | ReflectionOp.float64Array => Ret (pushType (builtin_class "Float64Array") p)
  | ReflectionOp.bigInt64Array => Ret (pushType (builtin_class "BigInt64Array") p)
  | ReflectionOp.arrayBuffer => Ret (pushType (builtin_class "ArrayBuffer") p)
  | ReflectionOp.class => exec_class p
  | ReflectionOp.parameter =>
      let '(ref, p1) := eatParameter ops p in
      '(type, p2) ← pop p1;
      Ret (pushType
             (node ReflectionKind.parameter
                   [(f_name, pool_get initialStack ref); (f_type, type)]) p2)
  | ReflectionOp.classReference => Outside
  | ReflectionOp.enum => Outside
  | ReflectionOp.enumMember =>
      let '(ref, p1) := eatParameter ops p in
      Ret (pushType
             (node ReflectionKind.enumMember
                   [(f_name, call_if_function (pool_get initialStack ref))]) p1)
  | ReflectionOp.tuple =>
      let '(stackTypes, p1) := popFrame p in
      types ← tuple_members (world p1) stackTypes;
      Ret (pushType (node ReflectionKind.tuple [(f_types, VArray types)]) p1)
  | ReflectionOp.tupleMember =>
      '(type, p1) ← pop p;
      Ret (pushType (node ReflectionKind.tupleMember [(f_type, type)]) p1)
  | ReflectionOp.namedTupleMember =>
      let '(ref, p1) := eatParameter ops p in
      '(type, p2) ← pop p1;
      Ret (pushType
             (node ReflectionKind.tupleMember
                   [(f_type, type); (f_name, call_if_function (pool_get initialStack ref))]) p2)
  | ReflectionOp.rest =>
      '(type, p1) ← pop p;
      Ret (pushType (node ReflectionKind.rest [(f_type, type)]) p1)
  | ReflectionOp.regexp => Ret (pushType (node ReflectionKind.regexp []) p)
  | ReflectionOp.typeParameter => exec_typeParameter false p
  | ReflectionOp.typeParameterDefault => exec_typeParameter true p
  | ReflectionOp.set =>
      '(type, p1) ← pop p;
      Ret (pushType
             (node ReflectionKind.class
                   [(f_classType, VClassType "Set"); (f_arguments, VArray [type]);
                    (f_types, VArray [])]) p1)
  | ReflectionOp.map =>
      '(value_, p1) ← pop p;
      '(key, p2) ← pop p1;
      Ret (pushType
             (node ReflectionKind.class
                   [(f_classType, VClassType "Map"); (f_arguments, VArray [key; value_]);
                    (f_types, VArray [])]) p2)
  | ReflectionOp.promise =>
      '(type, p1) ← pop p;
      Ret (pushType (node ReflectionKind.promise [(f_type, type)]) p1)
  | ReflectionOp.union =>
      let '(types, p1) := popFrame p in
      Ret (pushType
             (unboxUnion
                (node ReflectionKind.union [(f_types, VArray (flattenUnionTypes types))]))
             p1)
  | ReflectionOp.intersection => Outside
  | ReflectionOp.function => exec_function p
  | ReflectionOp.array =>
      '(type, p1) ← pop p;
      Ret (pushType (node ReflectionKind.array [(f_type, type)]) p1)
  | ReflectionOp.property => exec_property false p
  | ReflectionOp.propertySignature => exec_property true p
  | ReflectionOp.method => exec_method false p
  | ReflectionOp.methodSignature => exec_method true p
  | ReflectionOp.optional => set_top f_optional (VBoolean true) p
  | ReflectionOp.readonly => set_top f_readonly (VBoolean true) p
  | ReflectionOp.public => set_top f_visibility (VVisibility ReflectionVisibility.public) p
  | ReflectionOp.protected => set_top f_visibility (VVisibility ReflectionVisibility.protected) p
  | ReflectionOp.private => set_top f_visibility (VVisibility ReflectionVisibility.private) p
  | ReflectionOp.abstract => set_top f_abstract (VBoolean true) p
  | ReflectionOp.defaultValue =>
      let '(ref, p1) := eatParameter ops p in
      set_top f_default (pool_get initialStack ref) p1
  | ReflectionOp.description =>
      let '(ref, p1) := eatParameter ops p in
      set_top f_description (pool_get initialStack ref) p1
  | ReflectionOp.indexSignature =>
      '(type, p1) ← pop p;
      '(index, p2) ← pop p1;
      Ret (pushType (node ReflectionKind.indexSignature [(f_index, index); (f_type, type)]) p2)
  | ReflectionOp.objectLiteral => exec_objectLiteral p
  | ReflectionOp.distribute => exec_distribute p
  | ReflectionOp.condition =>
      '(right_, p1) ← pop p;
      '(left_, p2) ← pop p1;
      '(condition, p3) ← pop p2;
      let '(_, p4) := popFrame p3 in
      Ret (if truthy condition then pushType left_ p4 else pushType right_ p4)
  | ReflectionOp.jumpCondition =>
      let '(leftProgram, p1) := eatParameter ops p in
      let '(rightProgram, p2) := eatParameter ops p1 in
      '(condition, p3) ← pop p2;
      target ← need (if truthy condition then leftProgram else rightProgram);
      Ret (call target 1 p3)
  | ReflectionOp.infer => Outside
  | ReflectionOp.extends => Outside
  | ReflectionOp.indexAccess => Outside
  | ReflectionOp.typeof => Outside
  | ReflectionOp.keyof => exec_keyof p
  | ReflectionOp.var =>
      let p1 := push (node ReflectionKind.never []) p in
      Ret (with_frame (Frame.with_variables (Frame.variables (frame p1) + 1) (frame p1)) p1)
  | ReflectionOp.mappedType => Outside
  | ReflectionOp.loads => exec_loads p
  | ReflectionOp.arg =>
      let '(arg, p1) := eatParameter ops p in
      Ret (push
             (match arg with
              | Some a => stack_get (stack p1) (Frame.startIndex (frame p1) - a)
              | None => VUndefined
              end) p1)
  | ReflectionOp.return_ => returnFrame p
  | ReflectionOp.frame => Ret (pushFrame p)
  | ReflectionOp.moveFrame =>
      '(type, p1) ← pop p;
      let '(_, p2) := popFrame p1 in
      Ret (if truthy type then push type p2 else p2)
  | ReflectionOp.jump =>
      let '(arg, p1) := eatParameter ops p in
      arg ← need arg;
      Ret (with_program (arg - 1) p1)
  | ReflectionOp.call =>
      let '(target, p1) := eatParameter ops p in
      target ← need target;
      Ret (call target 1 p1)
  | ReflectionOp.inline => exec_inline p
  | ReflectionOp.inlineCall => exec_inlineCall p
  end.

(** One iteration of the [for] loop of [run]: the [switch] on
    [ops[this.program]] (no case for a number that is no opcode), then
    [this.program++]. *)
Definition step (p : t) : outcome t :=
  p1 ←
    match lookupZ ops (program p) ≫= opcode with
    | Some op => exec op p
    | None => Ret p
    end;
  Ret (with_program (program p1 + 1) p1).

(** [n] iterations, or fewer when the loop condition fails. *)
Fixpoint iterate (n : nat) (p : t) : outcome t :=
  if program p <? Z.of_nat (length ops) then
    match n with
    | O => OutOfFuel
    | S n' => p1 ← step p; iterate n' p1
    end
  else Ret p.

(** The state after [n] iterations, or after fewer when the loop condition
    fails before. *)
Fixpoint advance (n : nat) (p : t) : outcome t :=
  match n with
  | O => Ret p
  | S n' =>
      if program p <? Z.of_nat (length ops) then p1 ← step p; advance n' p1
      else Ret p
  end.

End Exec.

Fixpoint copy_from (i : Z) (source : list value) (stack : gmap Z value) : gmap Z value :=
  match source with
  | [] => stack
  | v :: rest => copy_from (i + 1) rest (<[i := v]> stack)
  end.

(** The prologue of [run]. *)
Definition enter (initialStack initialInputs : list value) (p : t) : t :=
  let sp := Z.of_nat (length initialStack) - 1 in
  mk (copy_from 0 initialStack (stack p)) sp
     (Frame.mk (Frame.index (frame p)) sp 0 initialInputs None
               (Frame.mappedType (frame p)) (Frame.distributiveLoop (frame p)))
     0 (resultType p) (forType p) (registry p) (world p).

(** [run(ops, initialStack, initialInputs)] with at most [n] iterations of
    its loop, nested evaluations being delegated to [nested]. *)
Definition run_with (nested : evaluator) (n : nat) : evaluator :=
  fun p ops initialStack initialInputs =>
    p1 ← iterate nested ops initialStack initialInputs n (enter initialStack initialInputs p);
    Ret (narrowOriginalLiteral (stack_get (stack p1) (stackPointer p1)), p1).

(** [run] with [fuel] bounding both the iterations of each loop and the
    depth of nested evaluations. *)
Fixpoint run (fuel : nat) : evaluator :=
  match fuel with
  | O => fun _ _ _ _ => OutOfFuel
  | S fuel' => run_with (run fuel') fuel
  end.

(** [resolvePacked(type, args)], the entry point for callers that hold a
    packed program: no registry is passed. *)
Definition resolvePacked (fuel : nat) (type : value) (args : list value) (w : World.t)
  : outcome (value * World.t) :=
  '(t, _, w) ← resolveRuntimeType (run fuel) type args None w;
  Ret (t, w).

End Machine.

End Processor.

(** ** A concrete numbering for the examples *)

(** Modelled from the spec: the numeric values of [ReflectionOp] are declared
    in [./type].  Section 6 lists the opcode names in the
    order of the enumeration; the examples number them in that order, from
    zero.  The theorems hold for every numbering. *)
Definition ReflectionOp_names : list ReflectionOp.t :=
  [ReflectionOp.string; ReflectionOp.number; ReflectionOp.boolean; ReflectionOp.bigint;
   ReflectionOp.void; ReflectionOp.unknown; ReflectionOp.object; ReflectionOp.never;
   ReflectionOp.undefined; ReflectionOp.symbol; ReflectionOp.null; ReflectionOp.any;
   ReflectionOp.literal; ReflectionOp.templateLiteral; ReflectionOp.regexp; ReflectionOp.date;
   ReflectionOp.uint8Array; ReflectionOp.int8Array; ReflectionOp.uint8ClampedArray;
   ReflectionOp.uint16Array; ReflectionOp.int16Array; ReflectionOp.uint32Array;
   ReflectionOp.int32Array; ReflectionOp.float32Array; ReflectionOp.float64Array;
   ReflectionOp.bigInt64Array; ReflectionOp.arrayBuffer;
   ReflectionOp.class; ReflectionOp.parameter; ReflectionOp.classReference;
   ReflectionOp.enum; ReflectionOp.enumMember; ReflectionOp.tuple; ReflectionOp.tupleMember;
   ReflectionOp.namedTupleMember; ReflectionOp.rest; ReflectionOp.set; ReflectionOp.map;
   ReflectionOp.promise; ReflectionOp.union; ReflectionOp.intersection;
   ReflectionOp.function; ReflectionOp.array; ReflectionOp.property;
   ReflectionOp.propertySignature; ReflectionOp.method; ReflectionOp.methodSignature;
   ReflectionOp.optional; ReflectionOp.readonly; ReflectionOp.public; ReflectionOp.protected;
   ReflectionOp.private; ReflectionOp.abstract; ReflectionOp.defaultValue;
   ReflectionOp.description; ReflectionOp.indexSignature; ReflectionOp.objectLiteral;
   ReflectionOp.distribute; ReflectionOp.condition; ReflectionOp.jumpCondition;
   ReflectionOp.infer; ReflectionOp.extends; ReflectionOp.indexAccess; ReflectionOp.typeof;
   ReflectionOp.keyof; ReflectionOp.var; ReflectionOp.mappedType; ReflectionOp.loads;
   ReflectionOp.arg; ReflectionOp.return_; ReflectionOp.frame; ReflectionOp.moveFrame;
   ReflectionOp.jump; ReflectionOp.call; ReflectionOp.inline; ReflectionOp.inlineCall;
   ReflectionOp.numberBrand; ReflectionOp.typeParameter; ReflectionOp.typeParameterDefault].

Definition opcode_of_spec (c : Z) : option ReflectionOp.t :=
  lookupZ ReflectionOp_names c.

Module Op.
Definition string : Z := 0.
Definition number : Z := 1.
Definition boolean : Z := 2.
Definition never : Z := 7.
Definition undefined : Z := 8.
Definition null : Z := 10.
Definition any : Z := 11.
Definition literal : Z := 12.
Definition class : Z := 27.
Definition parameter : Z := 28.
Definition union : Z := 39.
Definition array : Z := 42.
Definition property : Z := 43.
Definition propertySignature : Z := 44.
Definition method : Z := 45.
Definition optional : Z := 47.
Definition readonly : Z := 48.
Definition public : Z := 49.
Definition private : Z := 51.
Definition objectLiteral : Z := 56.
Definition distribute : Z := 57.
Definition keyof : Z := 64.
Definition var : Z := 65.
Definition loads : Z := 67.
Definition return_ : Z := 69.
Definition frame : Z := 70.
Definition jump : Z := 72.
Definition call : Z := 73.
Definition inline : Z := 74.
Definition inlineCall : Z := 75.
Definition typeParameter : Z := 77.
Definition typeParameterDefault : Z := 78.
End Op.

(** The predicate the examples pass for [isWithAnnotations].  It is only
    consulted when a program is resolved through the pool, and decides
    nothing but whether [typeName] is set on the result. *)
Definition annotated_kind (k : ReflectionKind.t) : bool :=
  match k with
  | ReflectionKind.class | ReflectionKind.objectLiteral => true
  | _ => false
  end.

Definition empty_world : World.t := World.mk ∅ ∅.

(** [new Processor(pack).run(ops, stack, inputs)] in the empty store. *)
Definition run_fresh (fuel : nat) (ops : list Z) (initialStack initialInputs : list value)
  : outcome (value * Processor.t) :=
  Processor.run opcode_of_spec annotated_kind fuel
    (Processor.new VUndefined ∅ empty_world) ops initialStack initialInputs.

(** ** Notions used in the statements *)

(** The opcode a character of the encoded string stands for. *)
Definition decode_char (c : ascii) : Z := charCode c - 33.

Definition property_kind (signature : bool) : ReflectionKind.t :=
  if signature then ReflectionKind.propertySignature else ReflectionKind.property.

Definition property_op (signature : bool) : ReflectionOp.t :=
  if signature then ReflectionOp.propertySignature else ReflectionOp.property.

(** The state [property] leaves behind, up to the node it pushes. *)
Definition after_property (p : Processor.t) : Processor.t :=
  Processor.with_stackPointer (Processor.stackPointer p - 1)
    (Processor.with_program (Processor.program p + 1) p).


Definition is_node (v : value) : bool :=
  match v with
  | VNode _ _ => true
  | _ => false
  end.

(** The kinds of members whose names [keyof] enumerates. *)
Definition named_member (k : ReflectionKind.t) : bool :=
  match k with
  | ReflectionKind.property | ReflectionKind.propertySignature
  | ReflectionKind.method | ReflectionKind.methodSignature => true
  | _ => false
  end.

Definition keyof_literal (member : value) : list value :=
  match member with
  | VNode k q =>
      if named_member k then [node ReflectionKind.literal [(f_literal, p_name q)]] else []
  | _ => []
  end.

(** A method node named [constructor]. *)
Definition is_constructor (member : value) : bool :=
  match member with
  | VNode ReflectionKind.method q => Processor.is_string (p_name q) "constructor"
  | _ => false
  end.

(** The property member a constructor parameter is projected to: none
    without a visibility. *)
Definition projected_property (parameter : value) : list value :=
  match parameter with
  | VNode _ q =>
      if Processor.is_undefined (p_visibility q) then []
      else
        [node ReflectionKind.property
           ([(f_name, p_name q); (f_visibility, p_visibility q); (f_type, p_type q)]
            ++ (if truthy (p_optional q) then [(f_optional, VBoolean true)] else [])
            ++ (if truthy (p_readonly q) then [(f_readonly, VBoolean true)] else []))]
  | _ => []
  end.

(** The [resultType] object of the processor is in the store. *)
Definition anchored (p : Processor.t) : Prop :=
  is_Some (World.anchors (Processor.world p) !! Processor.resultType p).

(** The value on top of the operand stack. *)
Definition top (p : Processor.t) : value :=
  stack_get (Processor.stack p) (Processor.stackPointer p).

Definition is_never (v : value) : bool :=
  match v with
  | VNode ReflectionKind.never _ => true
  | _ => false
  end.

(** A result of an iteration of [distribute] as it is accumulated: dropped
    when it is [never]. *)
Definition kept (r : value) : list value :=
  if is_never r then [] else [r].

(** [members] are what the loop of [distribute] visits for the type [T]:
    the types of a union in their order, the type itself otherwise. *)
Definition distributes_over (T : value) (members : list value) : Prop :=
  (exists q, T = VNode ReflectionKind.union q /\ p_types q = VArray members) \/
  (exists k q, T = VNode k q /\ k <> ReflectionKind.union /\ members = [T]).

(** [q] is a state in which a subprogram has just been entered by
    [call(body, ...)] with return address [ret]: the frame of the callee
    starts at the slot [start] that holds the return address. *)
Definition called (ret body start : Z) (parent : Frame.t) (q : Processor.t) : Prop :=
  Processor.program q = body /\
  Processor.frame q = Frame.mk (Frame.index parent + 1) start 0 [] (Some parent) None None /\
  Processor.stackPointer q = start /\
  stack_get (Processor.stack q) start = VNumber ret.

(** [q'] is the state in which the subprogram entered in [q] has returned
    the value [r]: the caller's frame is restored, the value has replaced
    the return address, the slots below are untouched, and the program
    continues at the return address. *)
Definition returned (ret start : Z) (parent : Frame.t) (r : value) (q q' : Processor.t)
  : Prop :=
  Processor.program q' = ret /\
  Processor.frame q' = parent /\
  Processor.stackPointer q' = start /\
  stack_get (Processor.stack q') start = r /\
  forall i, i < start -> stack_get (Processor.stack q') i = stack_get (Processor.stack q) i.

(** The frame of [distribute] while its loop is at position [k]. *)
Definition looping (members : list value) (k : Z) (f : Frame.t) : Frame.t :=
  Frame.with_distributiveLoop (Some (Loop.mk (VArray members) k)) f.

(** [pf] is the state in which [distribute] at index [d], entered in the
    frame [F0], has finished with the accumulated results [acc]: the frame
    of the loop is popped, the union of the results is on top of the stack,
    unboxed when it has a single member, and the program continues after
    the parameter of [distribute]. *)
Definition distribution_done (d : Z) (F0 : Frame.t) (members acc : list value)
    (pf : Processor.t) : Prop :=
  Processor.program pf = d + 2 /\
  Processor.stackPointer pf = Frame.startIndex F0 + 1 /\
  top pf
  = unboxUnion (node ReflectionKind.union [(f_types, VArray (flattenUnionTypes acc))]) /\
  Processor.frame pf
  = match Frame.previous F0 with
    | Some f => f
    | None => looping members (Z.of_nat (length members) + 1) F0
    end.

(** ** States and programs of the examples *)

(** A processor entered with the given pool and inputs, in the empty
    store. *)
Definition entered_with (initialStack initialInputs : list value) : Processor.t :=
  Processor.enter initialStack initialInputs (Processor.new VUndefined ∅ empty_world).

(** Nested evaluations of the examples. *)
Definition nested_run : Processor.evaluator :=
  Processor.run opcode_of_spec annotated_kind 8.

Definition T_string : value := node ReflectionKind.string [].
Definition T_number : value := node ReflectionKind.number [].
Definition T_never : value := node ReflectionKind.never [].
Definition T_null : value := node ReflectionKind.null [].
Definition T_undefined : value := node ReflectionKind.undefined [].

Definition T_union (types : list value) : value :=
  node ReflectionKind.union [(f_types, VArray types)].

Definition T_literal (v : value) : value :=
  node ReflectionKind.literal [(f_literal, v)].

(** [number] has been pushed as default of the type parameter [T]. *)
Definition default_pushed : Processor.t :=
  Processor.with_program 1 (Processor.push T_number (entered_with [VString "T"] [])).

(** [string | undefined] is on top of the stack, [property 0] comes next. *)
Definition optional_pushed : Processor.t :=
  Processor.with_program 3
    (Processor.push (T_union [T_string; T_undefined]) (entered_with [VString "p"] [])).

(** [{a: string, [index: string]: number}] *)
Definition members_with_index : list value :=
  [node ReflectionKind.propertySignature [(f_type, T_string); (f_name, VString "a")];
   node ReflectionKind.indexSignature [(f_index, T_string); (f_type, T_number)]].

Definition object_with_index : value :=
  node ReflectionKind.objectLiteral [(f_types, VArray members_with_index)].

Definition object_pushed : Processor.t :=
  Processor.push object_with_index (entered_with [] []).

Definition string_pushed : Processor.t :=
  Processor.push T_string (entered_with [] []).

(** The parameters of [constructor(private a?: string, b: number)] and the
    method node for it. *)
Definition parameter_a : value :=
  node ReflectionKind.parameter
    [(f_name, VString "a"); (f_type, T_string);
     (f_visibility, VVisibility ReflectionVisibility.private); (f_optional, VBoolean true)].

Definition parameter_b : value :=
  node ReflectionKind.parameter [(f_name, VString "b"); (f_type, T_number)].

Definition constructor_props : props value :=
  assign [(f_visibility, VVisibility ReflectionVisibility.public);
          (f_name, VString "constructor");
          (f_return, node ReflectionKind.any []);
          (f_parameters, VArray [parameter_a; parameter_b])] no_props.

Definition constructor_pushed : Processor.t :=
  Processor.push (VNode ReflectionKind.method constructor_props) (entered_with [] []).

(** [call 3; array; string; return] *)
Definition call_program : list Z := [Op.call; 3; Op.array; Op.string; Op.return_].

Definition before_call : Processor.t := entered_with [] [].

(** The state in which the subprogram of [call_program] reaches its
    [return]. *)
Definition before_return : Processor.t :=
  Processor.with_program 4
    (Processor.push T_string
       (Processor.call 3 1 (Processor.with_program 1 before_call))).

(** The encoded string of a list of opcodes and parameters: each code [c]
    becomes the character [c + 33]. *)
Definition encode (ops : list Z) : string :=
  string_of_list_ascii ((fun c => ascii_of_nat (Z.to_nat (c + 33))) <$> ops).

(** [interface Tree { value: number; children: Tree[] }] *)
Definition tree_ops : list Z :=
  [Op.number; Op.propertySignature; 0; Op.inline; 1; Op.array; Op.propertySignature; 2;
   Op.objectLiteral].

Definition tree_pool : list value := [VString "value"; VNumber 0; VString "children"].

Definition tree_world : World.t :=
  World.mk ∅ {[ 0%nat := Packed.mk (tree_pool ++ [VString (encode tree_ops)]) VUndefined ]}.

Definition tree_value : value :=
  node ReflectionKind.propertySignature [(f_type, T_number); (f_name, VString "value")].

Definition tree_children (self : value) : value :=
  node ReflectionKind.propertySignature
    [(f_type, node ReflectionKind.array [(f_type, self)]); (f_name, VString "children")].

(** The state of the run of [tree_ops] before [inline 1]. *)
Definition tree_before_inline : Processor.t :=
  Processor.with_program 3 (Processor.push tree_value (entered_with tree_pool [])).

(** The state of the run of [tree_ops] before its last opcode. *)
Definition tree_before_last : Processor.t :=
  Processor.with_program 8
    (Processor.push (tree_children (VAnchor 0))
       (Processor.push tree_value (entered_with tree_pool []))).

(** A program whose pool entry 0 is the number 0 and whose opcodes are
    [inline 0; array]: an alias of an array of itself. *)
Definition alias_world : World.t :=
  World.mk ∅ {[ 0%nat := Packed.mk [VNumber 0; VString (encode [Op.inline; 0; Op.array])]
                                  VUndefined ]}.

(** [interface Node { children: Node[] }] whose pool refers to the program
    through the function [() => Node] instead of the number. *)
Definition thunk_world : World.t :=
  World.mk ∅
    {[ 0%nat :=
         Packed.mk
           [VFunction "Node" (VPacked 0); VString "children";
            VString (encode [Op.inline; 0; Op.array; Op.propertySignature; 1;
                             Op.objectLiteral])]
           VUndefined ]}.

(** [never; inlineCall 0 1] with the number 0 in the pool: the program
    calls itself with one argument. *)
Definition self_call_ops : list Z := [Op.never; Op.inlineCall; 0; 1].

(** A distributive conditional type whose subprogram returns the member it
    is entered for: [jump 6] skips the subprogram [loads 1 0; return] at
    index 2; the main program reads the type argument [T], opens a frame
    with one variable, loads [T] and distributes over it. *)
Definition distribute_ops : list Z :=
  [Op.jump; 6; Op.loads; 1; 0; Op.return_; Op.typeParameter; 0; Op.frame; Op.var;
   Op.loads; 1; 0; Op.distribute; 2].

Definition distribute_pool : list value := [VString "T"].

Definition distribute_members : list value := [T_string; T_never; T_number].

Definition distribute_inputs : list value := [T_union distribute_members].

(** The state in which [distribute] is reached, after five iterations. *)
Definition distribute_entry : Processor.t :=
  match Processor.advance opcode_of_spec annotated_kind nested_run distribute_ops
          distribute_pool distribute_inputs 5
          (entered_with distribute_pool distribute_inputs) with
  | Ret p => p
  | _ => entered_with distribute_pool distribute_inputs
  end.

(** * Properties *)

(** ** Equality of kinds *)

Lemma kind_eqb_eq (a b : ReflectionKind.t) : ReflectionKind.eqb a b = true <-> a = b.
Proof. split; [destruct a, b; simpl; congruence | intros ->; destruct b; reflexivity]. Qed.

Lemma kind_eqb_refl (a : ReflectionKind.t) : ReflectionKind.eqb a a = true.
Proof. destruct a; reflexivity. Qed.

Lemma kind_eqb_neq (a b : ReflectionKind.t) : ReflectionKind.eqb a b = false <-> a <> b.
Proof.
  split.
  - intros H ->. rewrite kind_eqb_refl in H. discriminate.
  - intros H. destruct (ReflectionKind.eqb a b) eqn:E; [apply kind_eqb_eq in E; contradiction | reflexivity].
Qed.

Lemma kind_eqb_false (a b : ReflectionKind.t) : a <> b -> ReflectionKind.eqb a b = false.
Proof. apply kind_eqb_neq. Qed.

(** ** The decoder *)

Lemma unpackOps_app (decodedOps : list Z) (encodedOPs : string) :
  unpackOps decodedOps encodedOPs
  = decodedOps ++ (decode_char <$> list_ascii_of_string encodedOPs).
Proof.
  revert decodedOps.
  induction encodedOPs as [|c rest IH]; intros decodedOps; simpl.
  - by rewrite app_nil_r.
  - rewrite IH. by rewrite <- app_assoc.
Qed.

(** C3.  [unpack] returns the empty program when the last element of the
    pack is not a string; when the pack is [pool] followed by the string
    [encodedOPs], it returns the code of each character minus 33, in order,
    as opcodes, and [pool] as literal pool. *)
Theorem unpack_decodes (pack : list value) :
  ((forall encodedOPs, last pack <> Some (VString encodedOPs)) ->
   unpack pack = PackStruct.mk [] []) /\
  (forall pool encodedOPs,
     pack = pool ++ [VString encodedOPs] ->
     unpack pack
     = PackStruct.mk (decode_char <$> list_ascii_of_string encodedOPs) pool).
Proof.
  split.
  - intros Hlast. unfold unpack.
    destruct (last pack) as [[]|] eqn:E; try reflexivity.
    exfalso. by eapply Hlast.
  - intros pool encodedOPs ->. unfold unpack.
    rewrite last_snoc, unpackOps_app, length_app. simpl.
    f_equal.
    destruct pool as [|v pool]; [reflexivity|].
    replace (1 <? Z.of_nat (length (v :: pool) + 1)) with true
      by (symmetry; apply Z.ltb_lt; simpl; lia).
    replace (length (v :: pool) + 1 - 1)%nat with (length (v :: pool)) by lia.
    apply take_app_length.
Qed.

Lemma unpack_decodes_witness :
  unpack [VNumber 5] = PackStruct.mk [] [] /\
  unpack [VString "p"; VString "!,<"] = PackStruct.mk [0; 11; 27] [VString "p"].
Proof.
  split.
  - apply (proj1 (unpack_decodes [VNumber 5])). intros encodedOPs. discriminate.
  - exact (proj2 (unpack_decodes [VString "p"; VString "!,<"]) [VString "p"] "!,<" eq_refl).
Defined.

(** Projections of updated processor records. *)
Ltac proc_simpl :=
  cbn [Processor.stack Processor.stackPointer Processor.frame Processor.program
       Processor.resultType Processor.forType Processor.registry Processor.world
       Processor.with_stack Processor.with_stackPointer Processor.with_frame
       Processor.with_program Processor.with_registry Processor.with_world
       mbind outcome_bind] in *.

(** ** Single opcodes *)

Section Opcodes.

Variable opcode : Z -> option ReflectionOp.t.
Variable isWithAnnotations : ReflectionKind.t -> bool.
Variable nested : Processor.evaluator.
Variable ops : list Z.
Variable initialStack initialInputs : list value.

Local Abbreviation exec := (Processor.exec isWithAnnotations nested ops initialStack initialInputs).
Local Abbreviation step := (Processor.step opcode isWithAnnotations nested ops initialStack initialInputs).

(** C7.  [typeParameter] and [typeParameterDefault] read the type argument
    [frame.inputs[frame.variables]] and increment [frame.variables].
    [typeParameter] pushes that argument, or a bare [typeParameter] node
    with the name from the pool when the argument is [undefined].
    [typeParameterDefault] first pops the default that was pushed before
    it; it pushes the argument when there is one, the default when the
    argument is [undefined], and the bare node when both are
    [undefined]. *)
Theorem typeParameter_consumes_input (p : Processor.t) :
  let f := Processor.frame p in
  let input := default VUndefined (lookupZ (Frame.inputs f) (Frame.variables f)) in
  let bare :=
    node ReflectionKind.typeParameter
         [(f_name, pool_get initialStack (lookupZ ops (Processor.program p + 1)))] in
  let consumed :=
    Processor.with_frame (Frame.with_variables (Frame.variables f + 1) f)
      (Processor.with_program (Processor.program p + 1) p) in
  exec ReflectionOp.typeParameter p
  = Ret (Processor.push (if Processor.is_undefined input then bare else input) consumed)
  /\
  (0 <= Processor.stackPointer p ->
   let defaultValue := stack_get (Processor.stack p) (Processor.stackPointer p) in
   exec ReflectionOp.typeParameterDefault p
   = Ret (Processor.push
            (if Processor.is_undefined input
             then (if Processor.is_undefined defaultValue then bare else defaultValue)
             else input)
            (Processor.with_stackPointer (Processor.stackPointer p - 1) consumed))).
Proof.
  destruct p as [stack sp f pc rt ft reg w]. cbn zeta.
  unfold Processor.exec, Processor.exec_typeParameter, Processor.eatParameter,
    Processor.pop.
  cbn [Processor.frame Processor.program Processor.stack Processor.stackPointer
       Processor.with_program Processor.with_frame Processor.with_stackPointer].
  destruct (default VUndefined (lookupZ (Frame.inputs f) (Frame.variables f)))
    eqn:E; (split; [reflexivity|]); intros Hsp;
    (replace (sp <? 0) with false by (symmetry; apply Z.ltb_ge; lia));
    cbn; try reflexivity.
  destruct (stack_get stack sp); reflexivity.
Qed.

(** *** property and propertySignature *)

Lemma exec_property_reduced (signature : bool) (p : Processor.t) (popped type : value)
    (isOptional : bool) :
  0 <= Processor.stackPointer p ->
  stack_get (Processor.stack p) (Processor.stackPointer p) = popped ->
  Processor.reduce_optional (Processor.world p) popped = Ret (type, isOptional) ->
  exists q,
    exec (property_op signature) p
    = Ret (Processor.push (VNode (property_kind signature) q) (after_property p)) /\
    get_prop f_type q = type /\
    get_prop f_optional q = (if isOptional then VBoolean true else VUndefined) /\
    get_prop f_name q
    = call_if_function (pool_get initialStack (lookupZ ops (Processor.program p + 1))).
Proof.
  intros Hsp <- Hred.
  destruct p as [stack sp f pc rt ft reg w].
  cbn [Processor.stack Processor.stackPointer Processor.world] in *.
  assert (Hexec :
    exec (property_op signature) (Processor.mk stack sp f pc rt ft reg w)
    = Ret (Processor.push
             (node (property_kind signature)
                (let fs :=
                   [(f_type, type);
                    (f_name, call_if_function (pool_get initialStack (lookupZ ops (pc + 1))))] in
                 let fs := if isOptional then fs ++ [(f_optional, VBoolean true)] else fs in
                 if signature then fs
                 else fs ++ [(f_visibility, VVisibility ReflectionVisibility.public)]))
             (after_property (Processor.mk stack sp f pc rt ft reg w)))).
  { assert (Hop : exec (property_op signature) (Processor.mk stack sp f pc rt ft reg w)
                   = Processor.exec_property ops initialStack signature
                       (Processor.mk stack sp f pc rt ft reg w))
      by (destruct signature; reflexivity).
    rewrite Hop.
    unfold Processor.exec_property, Processor.eatParameter, Processor.pop.
    cbn [Processor.stack Processor.stackPointer Processor.world Processor.program
         Processor.with_program Processor.with_stackPointer].
    replace (sp <? 0) with false by (symmetry; apply Z.ltb_ge; lia).
    proc_simpl. rewrite Hred. proc_simpl.
    destruct signature; reflexivity. }
  eexists. split; [exact Hexec|].
  destruct signature, isOptional; repeat split; reflexivity.
Qed.

(** The kinds of the two members decide the reduction. *)
Lemma reduce_optional_pair (w : World.t) (q qa qb : props value) (ka kb : ReflectionKind.t) :
  p_types q = VArray [VNode ka qa; VNode kb qb] ->
  Processor.reduce_optional w (VNode ReflectionKind.union q)
  = Ret
      (let ua := ReflectionKind.eqb ka ReflectionKind.undefined in
       let ub := ReflectionKind.eqb kb ReflectionKind.undefined in
       let ra := negb (ReflectionKind.eqb ka ReflectionKind.null) && negb ua in
       let rb := negb (ReflectionKind.eqb kb ReflectionKind.null) && negb ub in
       if (ua || ub) && (ra || rb)
       then (if ra then VNode ka qa else VNode kb qb, true)
       else (VNode ReflectionKind.union q, false)).
Proof.
  intros Hq. unfold Processor.reduce_optional.
  cbn. rewrite Hq. cbn.
  destruct (ReflectionKind.eqb ka ReflectionKind.undefined),
           (ReflectionKind.eqb kb ReflectionKind.undefined),
           (ReflectionKind.eqb ka ReflectionKind.null),
           (ReflectionKind.eqb kb ReflectionKind.null); reflexivity.
Qed.

(** C5, as the code has it.  [property] and [propertySignature] pop a type.
    When it is a union of exactly two members of which one is [undefined]
    and the other is neither [null] nor [undefined], the node they push has
    that other member as type and [optional] set to [true].  A union of two
    members of any other kinds, a union whose number of members is not two,
    and a node that is no union are stored unchanged, and [optional] is not
    set. *)
Theorem property_reduces_optional (signature : bool) (p : Processor.t) (k : ReflectionKind.t)
    (q : props value) :
  0 <= Processor.stackPointer p ->
  stack_get (Processor.stack p) (Processor.stackPointer p) = VNode k q ->
  (forall ka kb qa qb,
     k = ReflectionKind.union ->
     p_types q = VArray [VNode ka qa; VNode kb qb] ->
     let reducible x y :=
       x = ReflectionKind.undefined /\ y <> ReflectionKind.null /\ y <> ReflectionKind.undefined in
     exists q',
       exec (property_op signature) p
       = Ret (Processor.push (VNode (property_kind signature) q') (after_property p)) /\
       (reducible ka kb ->
        get_prop f_type q' = VNode kb qb /\ get_prop f_optional q' = VBoolean true) /\
       (reducible kb ka ->
        get_prop f_type q' = VNode ka qa /\ get_prop f_optional q' = VBoolean true) /\
       (~ reducible ka kb -> ~ reducible kb ka ->
        get_prop f_type q' = VNode k q /\ get_prop f_optional q' = VUndefined)) /\
  ((k <> ReflectionKind.union \/
    exists members, p_types q = VArray members /\ length members <> 2%nat) ->
   exists q',
     exec (property_op signature) p
     = Ret (Processor.push (VNode (property_kind signature) q') (after_property p)) /\
     get_prop f_type q' = VNode k q /\ get_prop f_optional q' = VUndefined).
Proof.
  intros Hsp Htop. split.
  - intros ka kb qa qb -> Hq reducible.
    pose proof (reduce_optional_pair (Processor.world p) q qa qb ka kb Hq) as Hred.
    cbn zeta in Hred. subst reducible. cbn beta.
    destruct (ReflectionKind.eqb ka ReflectionKind.undefined) eqn:Ua;
      destruct (ReflectionKind.eqb kb ReflectionKind.undefined) eqn:Ub;
      destruct (ReflectionKind.eqb ka ReflectionKind.null) eqn:Na;
      destruct (ReflectionKind.eqb kb ReflectionKind.null) eqn:Nb;
      cbn in Hred;
      destruct (exec_property_reduced signature p _ _ _ Hsp Htop Hred)
        as (q' & Hexec & Ht & Ho & _);
      exists q'; (split; [exact Hexec|]);
      repeat match goal with
             | H : ReflectionKind.eqb _ _ = true |- _ => apply kind_eqb_eq in H
             | H : ReflectionKind.eqb _ _ = false |- _ => apply kind_eqb_neq in H
             end;
      repeat split; intros; try tauto; try congruence;
      try (exfalso; intuition congruence).
  - intros Hshape.
    assert (Hred : Processor.reduce_optional (Processor.world p) (VNode k q)
                   = Ret (VNode k q, false)).
    { unfold Processor.reduce_optional. cbn.
      destruct Hshape as [Hk | (members & Hq & Hlen)].
      - rewrite (kind_eqb_false _ _ Hk). reflexivity.
      - destruct (ReflectionKind.eqb k ReflectionKind.union); [|reflexivity].
        cbn. rewrite Hq. cbn.
        replace (Z.of_nat (length members) =? 2) with false
          by (symmetry; apply Z.eqb_neq; lia).
        reflexivity. }
    destruct (exec_property_reduced signature p _ _ _ Hsp Htop Hred)
      as (q' & Hexec & Ht & Ho & _).
    exists q'. auto.
Qed.

(** *** keyof *)

Lemma keyof_members_nodes (w : World.t) (members : list value) :
  forallb is_node members = true ->
  Processor.keyof_members w members = Ret (flat_map keyof_literal members).
Proof.
  induction members as [|m rest IH]; intros Hnodes; [reflexivity|].
  cbn in Hnodes. apply andb_prop in Hnodes as [Hm Hrest].
  destruct m as [| | | | | | | | |k q|]; try discriminate.
  cbn [Processor.keyof_members get_kind mbind outcome_bind flat_map keyof_literal].
  rewrite (IH Hrest).
  destruct k; reflexivity.
Qed.

(** C10.  [keyof] pops a value.  When its kind is neither [objectLiteral]
    nor [class], a union node with an empty list of types is pushed.  For an
    object literal or class (held by value or as result anchor) the pushed union lists one literal node per
    member of kind property, propertySignature, method or methodSignature,
    carrying the member's name, in the order of the members; members of
    other kinds, such as index signatures, contribute nothing.  The union is
    pushed as it is, whatever the number of its members. *)
Theorem keyof_enumerates_names (p : Processor.t) :
  0 <= Processor.stackPointer p ->
  let popped := Processor.with_stackPointer (Processor.stackPointer p - 1) p in
  (forall k,
     get_kind (Processor.world p) (top p) = Ret k ->
     k <> Some ReflectionKind.objectLiteral ->
     k <> Some ReflectionKind.class ->
     exec ReflectionOp.keyof p
     = Ret (Processor.push (node ReflectionKind.union [(f_types, VArray [])]) popped)) /\
  (forall k members,
     get_kind (Processor.world p) (top p) = Ret (Some k) ->
     k = ReflectionKind.objectLiteral \/ k = ReflectionKind.class ->
     get_field (Processor.world p) (top p) f_types = Ret (VArray members) ->
     forallb is_node members = true ->
     exec ReflectionOp.keyof p
     = Ret (Processor.push
              (node ReflectionKind.union [(f_types, VArray (flat_map keyof_literal members))])
              popped)) /\
  (forall q, keyof_literal (VNode ReflectionKind.indexSignature q) = []).
Proof.
  intros Hsp popped. subst popped.
  destruct p as [stack sp f pc rt ft reg w]. unfold top in *.
  cbn [Processor.stack Processor.stackPointer Processor.world] in *.
  assert (Hpop : (sp <? 0) = false) by (apply Z.ltb_ge; lia).
  split; [|split].
  - intros k Hk Hol Hcl.
    cbn [Processor.exec]. unfold Processor.exec_keyof, Processor.pop, kind_is.
    proc_simpl. rewrite Hpop. proc_simpl. rewrite Hk. proc_simpl.
    destruct k as [k|]; [|reflexivity].
    destruct (ReflectionKind.eqb k ReflectionKind.objectLiteral) eqn:E1.
    { apply kind_eqb_eq in E1. congruence. }
    destruct (ReflectionKind.eqb k ReflectionKind.class) eqn:E2.
    { apply kind_eqb_eq in E2. congruence. }
    reflexivity.
  - intros k members Hkind Hk Hq Hnodes.
    cbn [Processor.exec]. unfold Processor.exec_keyof, Processor.pop, kind_is.
    proc_simpl. rewrite Hpop. proc_simpl. rewrite Hkind. proc_simpl.
    assert (Hor : ReflectionKind.eqb k ReflectionKind.objectLiteral
                  || ReflectionKind.eqb k ReflectionKind.class = true)
      by (destruct Hk as [-> | ->]; reflexivity).
    rewrite Hor, Hq.
    cbn [as_array mbind outcome_bind].
    rewrite (keyof_members_nodes _ _ Hnodes). reflexivity.
  - reflexivity.
Qed.

(** *** class *)

Lemma top_push (v : value) (p : Processor.t) : top (Processor.push v p) = v.
Proof.
  unfold top, Processor.push, stack_get. proc_simpl.
  by rewrite lookup_insert_eq.
Qed.

Lemma parameter_properties_nodes (w : World.t) (parameters : list value) :
  forallb is_node parameters = true ->
  Processor.parameter_properties w parameters
  = Ret (flat_map projected_property parameters).
Proof.
  induction parameters as [|m rest IH]; intros Hnodes; [reflexivity|].
  cbn in Hnodes. apply andb_prop in Hnodes as [Hm Hrest].
  destruct m as [| | | | | | | | |k q|]; try discriminate.
  cbn [Processor.parameter_properties flat_map].
  rewrite (IH Hrest). unfold Processor.parameter_property, projected_property.
  cbn [get_field mbind outcome_bind].
  change (get_prop f_visibility q) with (p_visibility q).
  change (get_prop f_optional q) with (p_optional q).
  change (get_prop f_readonly q) with (p_readonly q).
  change (get_prop f_name q) with (p_name q).
  change (get_prop f_type q) with (p_type q).
  destruct (Processor.is_undefined (p_visibility q)); [reflexivity|].
  cbn [mbind outcome_bind].
  destruct (truthy (p_optional q)), (truthy (p_readonly q)); reflexivity.
Qed.

Lemma constructor_properties_first (w : World.t) (before after parameters : list value)
    (q : props value) :
  forallb is_node before = true ->
  forallb (fun m => negb (is_constructor m)) before = true ->
  p_name q = VString "constructor" ->
  p_parameters q = VArray parameters ->
  forallb is_node parameters = true ->
  Processor.constructor_properties w (before ++ VNode ReflectionKind.method q :: after)
  = Ret (flat_map projected_property parameters).
Proof.
  intros Hnodes Hnone Hname Hparams Hpnodes.
  induction before as [|m rest IH].
  - cbn [app Processor.constructor_properties kind_is get_kind get_field mbind
         outcome_bind ReflectionKind.eqb].
    change (get_prop f_name q) with (p_name q).
    change (get_prop f_parameters q) with (p_parameters q).
    rewrite Hname, Hparams. cbn [Processor.is_string String.eqb andb as_array mbind outcome_bind].
    replace (String.eqb "constructor" "constructor") with true by reflexivity.
    cbn [andb mbind outcome_bind].
    apply parameter_properties_nodes, Hpnodes.
  - cbn in Hnodes, Hnone.
    apply andb_prop in Hnodes as [Hm Hrest].
    apply andb_prop in Hnone as [Hc Hcrest].
    destruct m as [| | | | | | | | |k qm|]; try discriminate.
    cbn [app Processor.constructor_properties kind_is get_kind mbind outcome_bind].
    destruct (ReflectionKind.eqb k ReflectionKind.method) eqn:Ek.
    + apply kind_eqb_eq in Ek. subst k.
      cbn [get_field mbind outcome_bind]. change (get_prop f_name qm) with (p_name qm).
      cbn [is_constructor] in Hc. apply negb_true_iff in Hc. rewrite Hc.
      cbn [andb]. apply IH; assumption.
    + cbn [mbind outcome_bind andb]. apply IH; assumption.
Qed.

(** What is known of a projected property. *)
Lemma projected_property_fields (k : ReflectionKind.t) (q : props value) :
  (p_visibility q = VUndefined -> projected_property (VNode k q) = []) /\
  (p_visibility q <> VUndefined ->
   exists q',
     projected_property (VNode k q) = [VNode ReflectionKind.property q'] /\
     get_prop f_name q' = p_name q /\
     get_prop f_type q' = p_type q /\
     get_prop f_visibility q' = p_visibility q /\
     get_prop f_optional q' = (if truthy (p_optional q) then VBoolean true else VUndefined) /\
     get_prop f_readonly q' = (if truthy (p_readonly q) then VBoolean true else VUndefined)).
Proof.
  unfold projected_property. split.
  - intros ->. reflexivity.
  - intros Hvis.
    destruct (p_visibility q) eqn:E; try congruence;
      cbn [Processor.is_undefined];
      (eexists; split; [reflexivity|]);
      destruct (truthy (p_optional q)), (truthy (p_readonly q));
      repeat split; reflexivity.
Qed.

Lemma popFrame_keeps (p : Processor.t) :
  Processor.world (snd (Processor.popFrame p)) = Processor.world p /\
  Processor.resultType (snd (Processor.popFrame p)) = Processor.resultType p /\
  Processor.program (snd (Processor.popFrame p)) = Processor.program p.
Proof.
  unfold Processor.popFrame. cbn [snd]. proc_simpl.
  destruct (Frame.previous (Processor.frame p)); repeat split; reflexivity.
Qed.

(** The node [class] pushes, given the properties appended to its
    members. *)
Lemma exec_class_pushes (p : Processor.t) (extra : list value) :
  anchored p ->
  Processor.constructor_properties (Processor.world p) (fst (Processor.popFrame p))
  = Ret extra ->
  exists p',
    exec ReflectionOp.class p = Ret p' /\
    get_kind (Processor.world p') (top p') = Ret (Some ReflectionKind.class) /\
    get_field (Processor.world p') (top p') f_types
    = Ret (VArray (fst (Processor.popFrame p) ++ extra)).
Proof.
  intros Hanchor Hextra.
  destruct (popFrame_keeps p) as (Hw & Hrt & _).
  cbn [Processor.exec]. unfold Processor.exec_class.
  destruct (Processor.popFrame p) as [types p1] eqn:Epop. cbn [fst snd] in *.
  destruct p1 as [s1 sp1 f1 pc1 rt1 ft1 reg1 w1]. proc_simpl. subst rt1 w1.
  rewrite Hextra. proc_simpl.
  destruct Hanchor as [[k0 q0] Hanchor].
  destruct (pc1 + 1 =? Z.of_nat (length ops)).
  - unfold Processor.assign_resultType. proc_simpl. rewrite Hanchor. proc_simpl.
    destruct (negb (Z.of_nat (length (List.filter isType (Frame.inputs f1))) =? 0)).
    + unfold set_field. cbn [World.anchors World.with_anchors].
      rewrite lookup_insert_eq. proc_simpl.
      eexists. split; [reflexivity|].
      unfold Processor.pushType. rewrite top_push.
      unfold Processor.push. proc_simpl.
      cbn [get_kind get_field World.anchors World.with_anchors].
      rewrite lookup_insert_eq. split; reflexivity.
    + proc_simpl. eexists. split; [reflexivity|].
      unfold Processor.pushType. rewrite top_push.
      unfold Processor.push. proc_simpl.
      cbn [get_kind get_field World.anchors World.with_anchors].
      rewrite lookup_insert_eq. split; reflexivity.
  - proc_simpl.
    destruct (negb (Z.of_nat (length (List.filter isType (Frame.inputs f1))) =? 0)).
    + cbn [set_field node]. proc_simpl.
      eexists. split; [reflexivity|].
      unfold Processor.pushType. rewrite top_push. split; reflexivity.
    + proc_simpl. eexists. split; [reflexivity|].
      unfold Processor.pushType. rewrite top_push. split; reflexivity.
Qed.

(** C6.  When the members popped by [class] contain a method named
    [constructor], the first such method is scanned: the member list of the
    pushed class node is the popped list followed by one property node for
    each parameter that has a visibility, in the order of the parameters.
    The property has the parameter's name, type and visibility, and
    [optional] and [readonly] are [true] exactly when they are set on the
    parameter.  A parameter without visibility yields no member. *)
Theorem class_projects_constructor (p : Processor.t) (before after parameters : list value)
    (q : props value) :
  anchored p ->
  fst (Processor.popFrame p) = before ++ VNode ReflectionKind.method q :: after ->
  forallb is_node before = true ->
  forallb (fun m => negb (is_constructor m)) before = true ->
  p_name q = VString "constructor" ->
  p_parameters q = VArray parameters ->
  forallb is_node parameters = true ->
  (exists p',
     exec ReflectionOp.class p = Ret p' /\
     get_kind (Processor.world p') (top p') = Ret (Some ReflectionKind.class) /\
     get_field (Processor.world p') (top p') f_types
     = Ret (VArray ((before ++ VNode ReflectionKind.method q :: after)
                    ++ flat_map projected_property parameters))) /\
  (forall k qp,
     (p_visibility qp = VUndefined -> projected_property (VNode k qp) = []) /\
     (p_visibility qp <> VUndefined ->
      exists q',
        projected_property (VNode k qp) = [VNode ReflectionKind.property q'] /\
        get_prop f_name q' = p_name qp /\
        get_prop f_type q' = p_type qp /\
        get_prop f_visibility q' = p_visibility qp /\
        get_prop f_optional q' = (if truthy (p_optional qp) then VBoolean true else VUndefined) /\
        get_prop f_readonly q' = (if truthy (p_readonly qp) then VBoolean true else VUndefined))).
Proof.
  intros Hanchor Hmembers Hnodes Hnone Hname Hparams Hpnodes.
  split; [|apply projected_property_fields].
  rewrite <- Hmembers.
  apply exec_class_pushes; [assumption|].
  rewrite Hmembers.
  by apply constructor_properties_first.
Qed.

(** *** call and return *)

Lemma step_exec (p : Processor.t) (c : Z) (op : ReflectionOp.t) :
  lookupZ ops (Processor.program p) = Some c ->
  opcode c = Some op ->
  step p = (p1 ← exec op p; Ret (Processor.with_program (Processor.program p1 + 1) p1)).
Proof.
  intros Hc Hop. unfold Processor.step. rewrite Hc. cbn [mbind option_bind]. by rewrite Hop.
Qed.

(** C2.  [call t] stores [program + 1], the index of the opcode after its
    parameter, in the slot above the stack pointer, enters a frame whose
    [startIndex] is the stack pointer at the time the frame is pushed (the
    slot of the return address) and whose parent is the caller's frame, and
    continues at [t].  [return], in a frame that holds a return address at
    [startIndex] and has a parent, pops the return value, cuts the stack
    back to [startIndex - 1], pushes the return value (which thus replaces
    the return address), restores the parent frame and continues at the
    return address.  Hence a [return] reached in the frame of a call whose
    return address is still in place resumes after the call, in the
    caller's frame, with the returned value on top of the caller's stack. *)
Theorem call_return_convention (p : Processor.t) (c : Z) :
  lookupZ ops (Processor.program p) = Some c ->
  let sp := Processor.stackPointer p in
  let f := Processor.frame p in
  let callee := Frame.mk (Frame.index f + 1) (sp + 1) 0 [] (Some f) None None in
  (forall target,
     opcode c = Some ReflectionOp.call ->
     lookupZ ops (Processor.program p + 1) = Some target ->
     step p
     = Ret (Processor.mk
              (<[sp + 1 := VNumber (Processor.program p + 1 + 1)]> (Processor.stack p))
              (sp + 1) callee target
              (Processor.resultType p) (Processor.forType p) (Processor.registry p)
              (Processor.world p))) /\
  (forall returnAddress parent,
     opcode c = Some ReflectionOp.return_ ->
     0 <= sp ->
     stack_get (Processor.stack p) (Frame.startIndex f) = VNumber returnAddress ->
     Frame.previous f = Some parent ->
     step p
     = Ret (Processor.mk
              (<[Frame.startIndex f := top p]> (Processor.stack p))
              (Frame.startIndex f) parent returnAddress
              (Processor.resultType p) (Processor.forType p) (Processor.registry p)
              (Processor.world p))) /\
  (forall target body c',
     opcode c = Some ReflectionOp.call ->
     lookupZ ops (Processor.program p + 1) = Some target ->
     lookupZ ops (Processor.program body) = Some c' ->
     opcode c' = Some ReflectionOp.return_ ->
     Processor.frame body = callee ->
     stack_get (Processor.stack body) (sp + 1) = VNumber (Processor.program p + 1 + 1) ->
     0 <= Processor.stackPointer body ->
     step body
     = Ret (Processor.mk
              (<[sp + 1 := top body]> (Processor.stack body))
              (sp + 1) f (Processor.program p + 2)
              (Processor.resultType body) (Processor.forType body) (Processor.registry body)
              (Processor.world body))).
Proof.
  intros Hc sp f callee.
  assert (Hreturn : forall (b : Processor.t) cb returnAddress parent,
    lookupZ ops (Processor.program b) = Some cb ->
    opcode cb = Some ReflectionOp.return_ ->
    0 <= Processor.stackPointer b ->
    stack_get (Processor.stack b) (Frame.startIndex (Processor.frame b))
    = VNumber returnAddress ->
    Frame.previous (Processor.frame b) = Some parent ->
    step b
    = Ret (Processor.mk
             (<[Frame.startIndex (Processor.frame b) := top b]> (Processor.stack b))
             (Frame.startIndex (Processor.frame b)) parent returnAddress
             (Processor.resultType b) (Processor.forType b) (Processor.registry b)
             (Processor.world b))).
  { intros b cb returnAddress parent Hcb Hop Hsp Hra Hparent.
    rewrite (step_exec b cb _ Hcb Hop).
    destruct b as [stack spb fb pc rt ft reg w]. unfold top in *. proc_simpl.
    cbn [Processor.exec]. unfold Processor.returnFrame, Processor.pop. proc_simpl.
    replace (spb <? 0) with false by (symmetry; apply Z.ltb_ge; lia).
    proc_simpl. rewrite Hra. unfold Processor.push. proc_simpl.
    rewrite Hparent. proc_simpl.
    replace (Frame.startIndex fb - 1 + 1) with (Frame.startIndex fb) by lia.
    replace (returnAddress - 1 + 1) with returnAddress by lia.
    reflexivity. }
  split; [|split].
  - intros target Hop Htarget.
    rewrite (step_exec p c _ Hc Hop).
    destruct p as [stack sp0 f0 pc rt ft reg w]. subst sp f callee. proc_simpl.
    cbn [Processor.exec]. unfold Processor.eatParameter. proc_simpl.
    rewrite Htarget. cbn [Processor.need mbind outcome_bind].
    unfold Processor.call, Processor.pushFrame, Processor.push. proc_simpl.
    replace (target - 1 + 1) with target by lia.
    reflexivity.
  - intros returnAddress parent Hop Hsp Hra Hparent.
    exact (Hreturn p c returnAddress parent Hc Hop Hsp Hra Hparent).
  - intros target body c' _ _ Hc' Hop' Hframe Hra Hsp.
    rewrite (Hreturn body c' (Processor.program p + 1 + 1) f Hc' Hop' Hsp).
    + rewrite Hframe. subst callee. cbn [Frame.startIndex].
      replace (Processor.program p + 1 + 1) with (Processor.program p + 2) by lia.
      reflexivity.
    + rewrite Hframe. exact Hra.
    + rewrite Hframe. reflexivity.
Qed.

(** *** Malformed programs *)

Lemma iterate_throws (n : nat) (p : Processor.t) (e : failure) :
  Processor.program p < Z.of_nat (length ops) ->
  step p = Throw e ->
  Processor.iterate opcode isWithAnnotations nested ops initialStack initialInputs (S n) p
  = Throw e.
Proof.
  intros Hpc Hstep. cbn [Processor.iterate].
  replace (Processor.program p <? Z.of_nat (length ops)) with true
    by (symmetry; apply Z.ltb_lt; lia).
  rewrite Hstep. reflexivity.
Qed.

(** C9, as the code has it.  There is no failure kind of its own for
    malformed programs.  [pop] on an empty stack throws the generic error
    [Stack empty], which leaves the loop of [run] at once; a number that is
    no opcode is skipped without any effect but the increment of the program
    counter; a pool index out of range reads as [undefined], so that
    [literal] pushes a literal node without a value. *)
Theorem malformed_program_behaviour (p : Processor.t) (c : Z) :
  lookupZ ops (Processor.program p) = Some c ->
  (Processor.stackPointer p < 0 ->
   opcode c = Some ReflectionOp.array ->
   Processor.pop p = Throw (Error "Stack empty") /\
   step p = Throw (Error "Stack empty") /\
   forall n,
     Processor.iterate opcode isWithAnnotations nested ops initialStack initialInputs (S n) p
     = Throw (Error "Stack empty")) /\
  (opcode c = None ->
   step p = Ret (Processor.with_program (Processor.program p + 1) p)) /\
  (forall ref,
     opcode c = Some ReflectionOp.literal ->
     lookupZ ops (Processor.program p + 1) = Some ref ->
     ref < 0 \/ Z.of_nat (length initialStack) <= ref ->
     step p
     = Ret (Processor.with_program (Processor.program p + 2)
              (Processor.push (node ReflectionKind.literal [(f_literal, VUndefined)]) p))).
Proof.
  intros Hc. split; [|split].
  - intros Hsp Hop.
    assert (Hpop : Processor.pop p = Throw (Error "Stack empty")).
    { unfold Processor.pop.
      replace (Processor.stackPointer p <? 0) with true by (symmetry; apply Z.ltb_lt; lia).
      reflexivity. }
    assert (Hstep : step p = Throw (Error "Stack empty")).
    { rewrite (step_exec p c _ Hc Hop). cbn [Processor.exec]. by rewrite Hpop. }
    split; [exact Hpop|]. split; [exact Hstep|].
    intros n. apply iterate_throws; [|exact Hstep].
    unfold lookupZ in Hc. destruct (Processor.program p <? 0) eqn:E; [discriminate|].
    apply Z.ltb_ge in E. apply lookup_lt_Some in Hc. lia.
  - intros Hop. unfold Processor.step. rewrite Hc. cbn [mbind option_bind]. by rewrite Hop.
  - intros ref Hop Href Hrange.
    rewrite (step_exec p c _ Hc Hop).
    cbn [Processor.exec]. unfold Processor.eatParameter. proc_simpl.
    rewrite Href.
    assert (Hpool : pool_get initialStack (Some ref) = VUndefined).
    { unfold pool_get, lookupZ.
      destruct (ref <? 0) eqn:E; [reflexivity|]. apply Z.ltb_ge in E.
      rewrite lookup_ge_None_2; [reflexivity|lia]. }
    rewrite Hpool. unfold Processor.pushType.
    destruct p as [stack sp f pc rt ft reg w]. unfold Processor.push. proc_simpl.
    replace (pc + 1 + 1) with (pc + 2) by lia. reflexivity.
Qed.

(** *** The result anchor of a processor never changes *)

Lemma bind_ret_inv {A B : Type} (m : outcome A) (f : A -> outcome B) (b : B) :
  m ≫= f = Ret b -> exists a, m = Ret a /\ f a = Ret b.
Proof. destruct m; cbn; intros H; try discriminate. eauto. Qed.

Lemma pop_keeps (p p' : Processor.t) (v : value) :
  Processor.pop p = Ret (v, p') -> Processor.resultType p' = Processor.resultType p.
Proof.
  unfold Processor.pop. destruct (Processor.stackPointer p <? 0); intros H; [discriminate|].
  injection H as _ <-. reflexivity.
Qed.

Lemma popFrame_keeps_resultType (p p' : Processor.t) (l : list value) :
  Processor.popFrame p = (l, p') -> Processor.resultType p' = Processor.resultType p.
Proof.
  intros H. destruct (popFrame_keeps p) as (_ & Hrt & _). rewrite H in Hrt. exact Hrt.
Qed.

Lemma eatParameter_keeps (p p' : Processor.t) (o : option Z) :
  Processor.eatParameter ops p = (o, p') -> Processor.resultType p' = Processor.resultType p.
Proof. unfold Processor.eatParameter. intros H. injection H as _ <-. reflexivity. Qed.

Lemma set_top_keeps (f : field) (x : value) (p p' : Processor.t) :
  Processor.set_top f x p = Ret p' -> Processor.resultType p' = Processor.resultType p.
Proof.
  unfold Processor.set_top. intros H.
  apply bind_ret_inv in H as ([v w] & _ & H). injection H as <-. reflexivity.
Qed.

Lemma assign_resultType_keeps (k : ReflectionKind.t) (fs : list (field * value))
    (p p' : Processor.t) :
  Processor.assign_resultType k fs p = Ret p' ->
  Processor.resultType p' = Processor.resultType p.
Proof.
  unfold Processor.assign_resultType.
  destruct (World.anchors (Processor.world p) !! Processor.resultType p) as [[]|];
    intros H; [|discriminate].
  injection H as <-. reflexivity.
Qed.

Lemma returnFrame_keeps (p p' : Processor.t) :
  Processor.returnFrame p = Ret p' -> Processor.resultType p' = Processor.resultType p.
Proof.
  unfold Processor.returnFrame. intros H.
  apply bind_ret_inv in H as ([v p1] & Hpop & H). apply pop_keeps in Hpop.
  injection H as <-. rewrite <- Hpop.
  destruct (stack_get (Processor.stack p1) (Frame.startIndex (Processor.frame p1)));
    unfold Processor.push; proc_simpl;
    destruct (Frame.previous (Processor.frame p1)); reflexivity.
Qed.

Lemma collect_inputs_keeps (count : nat) :
  forall (i : Z) (inputs inputs' : list value) (p p' : Processor.t),
    Processor.collect_inputs initialInputs count i inputs p = Ret (inputs', p') ->
    Processor.resultType p' = Processor.resultType p.
Proof.
  induction count as [|count IH]; intros i inputs inputs' p p' H; cbn in H.
  - injection H as _ <-. reflexivity.
  - apply bind_ret_inv in H as ([v p1] & Hpop & H). apply pop_keeps in Hpop.
    apply bind_ret_inv in H as (b & _ & H). apply IH in H. congruence.
Qed.

Lemma annotate_keeps (pOrFn : value) (typeArguments : option (list value)) (result result' : value)
    (p p' : Processor.t) :
  Processor.annotate isWithAnnotations pOrFn typeArguments result p = Ret (result', p') ->
  Processor.resultType p' = Processor.resultType p.
Proof.
  unfold Processor.annotate. intros H.
  apply bind_ret_inv in H as (b & _ & H). destruct b.
  - apply bind_ret_inv in H as ([r w] & _ & H).
    destruct typeArguments.
    + apply bind_ret_inv in H as ([r' w'] & _ & H). injection H as _ <-. reflexivity.
    + injection H as _ <-. reflexivity.
  - injection H as _ <-. reflexivity.
Qed.

(** Inversion of a run of opcode handlers, down to the primitives. *)
Ltac keeps_step :=
  match goal with
  | H : Ret _ = Ret _ |- _ => injection H as H; try subst
  | H : Throw _ = Ret _ |- _ => discriminate H
  | H : Outside = Ret _ |- _ => discriminate H
  | H : OutOfFuel = Ret _ |- _ => discriminate H
  | H : Processor.pop _ = Ret (_, _) |- _ => apply pop_keeps in H
  | H : Processor.popFrame _ = (_, _) |- _ => apply popFrame_keeps_resultType in H
  | H : Processor.eatParameter _ _ = (_, _) |- _ => apply eatParameter_keeps in H
  | H : Processor.set_top _ _ _ = Ret _ |- _ => apply set_top_keeps in H
  | H : Processor.assign_resultType _ _ _ = Ret _ |- _ => apply assign_resultType_keeps in H
  | H : Processor.returnFrame _ = Ret _ |- _ => apply returnFrame_keeps in H
  | H : Processor.collect_inputs _ _ _ _ _ = Ret (_, _) |- _ => apply collect_inputs_keeps in H
  | H : Processor.annotate _ _ _ _ _ = Ret (_, _) |- _ => apply annotate_keeps in H
  | H : mbind _ _ = Ret _ |- _ =>
      let a := fresh "a" in
      let E := fresh "E" in
      apply bind_ret_inv in H as (a & E & H);
      try (destruct a as [[? ?] ?] || destruct a as [? ?]); cbn beta iota in H
  | H : (let '(_, _) := ?x in _) = Ret _ |- _ => destruct x eqn:?
  | H : (if ?b then _ else _) = Ret _ |- _ => destruct b eqn:?
  | H : match ?x with _ => _ end = Ret _ |- _ => destruct x eqn:?
  end.

Ltac keeps_done :=
  repeat match goal with
         | H : (if ?b then _ else _) = _ |- _ => destruct b
         | |- context [if ?b then _ else _] => destruct b
         | H : _ = Processor.mk _ _ _ _ _ _ _ _ |- _ =>
             apply (f_equal Processor.resultType) in H
         end;
  unfold Processor.pushType, Processor.call, Processor.pushFrame, Processor.push in *;
  proc_simpl; congruence.

Lemma exec_keeps_resultType (op : ReflectionOp.t) (p p' : Processor.t) :
  exec op p = Ret p' -> Processor.resultType p' = Processor.resultType p.
Proof.
  intros H.
  destruct op; cbn [Processor.exec] in H;
    unfold Processor.exec_class, Processor.exec_objectLiteral, Processor.exec_property,
      Processor.exec_method, Processor.exec_function, Processor.exec_typeParameter,
      Processor.exec_distribute, Processor.distribute_enter, Processor.distribute_next,
      Processor.exec_keyof, Processor.exec_loads, Processor.exec_inline,
      Processor.exec_inlineCall in H;
    repeat keeps_step; try keeps_done.
Qed.

Lemma step_keeps_resultType (p p' : Processor.t) :
  step p = Ret p' -> Processor.resultType p' = Processor.resultType p.
Proof.
  unfold Processor.step. intros H.
  apply bind_ret_inv in H as (p1 & H1 & H). injection H as <-. proc_simpl.
  destruct (lookupZ ops (Processor.program p) ≫= opcode).
  - by eapply exec_keeps_resultType.
  - injection H1 as <-. reflexivity.
Qed.

(** *** Slices of the stack *)

Lemma slice_ext (s1 s2 : gmap Z value) (lo hi : Z) :
  (forall i, lo <= i < hi -> stack_get s1 i = stack_get s2 i) ->
  slice s1 lo hi = slice s2 lo hi.
Proof.
  intros Hext. unfold slice. apply list_fmap_ext.
  intros i x Hx. apply lookup_seqZ in Hx as [-> Hi]. apply Hext. lia.
Qed.

Lemma slice_nil (s : gmap Z value) (lo hi : Z) : hi <= lo -> slice s lo hi = [].
Proof. intros H. unfold slice. rewrite seqZ_nil; [reflexivity|lia]. Qed.

Lemma slice_snoc (s : gmap Z value) (lo n : Z) :
  0 <= n ->
  slice s lo (lo + n + 1) = slice s lo (lo + n) ++ [stack_get s (lo + n)].
Proof.
  intros Hn. unfold slice.
  replace (lo + n + 1 - lo) with (n + 1) by lia.
  replace (lo + n - lo) with n by lia.
  rewrite seqZ_app by lia. rewrite fmap_app. f_equal.
Qed.

Lemma stack_get_insert_eq (s : gmap Z value) (i : Z) (v : value) :
  stack_get (<[i := v]> s) i = v.
Proof. unfold stack_get. by rewrite lookup_insert_eq. Qed.

Lemma stack_get_insert_ne (s : gmap Z value) (i j : Z) (v : value) :
  i <> j -> stack_get (<[i := v]> s) j = stack_get s j.
Proof. intros H. unfold stack_get. by rewrite lookup_insert_ne. Qed.

(** *** The loop and its prefixes *)

Lemma advance_ended (n : nat) (p : Processor.t) :
  Z.of_nat (length ops) <= Processor.program p ->
  Processor.advance opcode isWithAnnotations nested ops initialStack initialInputs n p = Ret p.
Proof.
  intros H. destruct n; [reflexivity|]. cbn [Processor.advance].
  replace (Processor.program p <? Z.of_nat (length ops)) with false
    by (symmetry; apply Z.ltb_ge; lia).
  reflexivity.
Qed.

Lemma advance_add (n m : nat) (p : Processor.t) :
  Processor.advance opcode isWithAnnotations nested ops initialStack initialInputs (n + m) p
  = (p1 ← Processor.advance opcode isWithAnnotations nested ops initialStack initialInputs n p;
     Processor.advance opcode isWithAnnotations nested ops initialStack initialInputs m p1).
Proof.
  revert p. induction n as [|n IH]; intros p; [reflexivity|].
  cbn [Nat.add Processor.advance].
  destruct (Processor.program p <? Z.of_nat (length ops)) eqn:E.
  - destruct (step p) as [p1| | |]; cbn [mbind outcome_bind]; [apply IH|reflexivity..].
  - cbn [mbind outcome_bind]. apply Z.ltb_ge in E. symmetry. by apply advance_ended.
Qed.

Lemma advance_one (p p1 : Processor.t) :
  Processor.program p < Z.of_nat (length ops) ->
  step p = Ret p1 ->
  Processor.advance opcode isWithAnnotations nested ops initialStack initialInputs 1 p = Ret p1.
Proof.
  intros Hpc Hstep. cbn [Processor.advance].
  replace (Processor.program p <? Z.of_nat (length ops)) with true
    by (symmetry; apply Z.ltb_lt; lia).
  rewrite Hstep. reflexivity.
Qed.

(** A prefix of the loop followed by the rest of it is the loop. *)
Lemma iterate_advance (n m : nat) (p p1 : Processor.t) :
  Processor.advance opcode isWithAnnotations nested ops initialStack initialInputs n p = Ret p1 ->
  Processor.iterate opcode isWithAnnotations nested ops initialStack initialInputs (n + m) p
  = Processor.iterate opcode isWithAnnotations nested ops initialStack initialInputs m p1.
Proof.
  revert p. induction n as [|n IH]; intros p Hadv.
  - injection Hadv as ->. reflexivity.
  - cbn [Processor.advance] in Hadv. cbn [Nat.add Processor.iterate].
    destruct (Processor.program p <? Z.of_nat (length ops)) eqn:E.
    + destruct (step p) as [p2| | |]; cbn [mbind outcome_bind] in *; try discriminate.
      apply IH, Hadv.
    + injection Hadv as ->. destruct m; cbn [Processor.iterate]; rewrite E; reflexivity.
Qed.

(** *** Self-reference and the result anchor *)

Lemma iterate_last (n : nat) (p p1 : Processor.t) :
  Processor.program p < Z.of_nat (length ops) ->
  step p = Ret p1 ->
  Z.of_nat (length ops) <= Processor.program p1 ->
  Processor.iterate opcode isWithAnnotations nested ops initialStack initialInputs (S n) p
  = Ret p1.
Proof.
  intros Hpc Hstep Hend. cbn [Processor.iterate].
  replace (Processor.program p <? Z.of_nat (length ops)) with true
    by (symmetry; apply Z.ltb_lt; lia).
  rewrite Hstep. cbn [mbind outcome_bind].
  destruct n; cbn [Processor.iterate];
    replace (Processor.program p1 <? Z.of_nat (length ops)) with false
      by (symmetry; apply Z.ltb_ge; lia);
    reflexivity.
Qed.

(** [objectLiteral] and [class] as last opcode assign their node to the
    result anchor and push the anchor. *)
Lemma exec_last_aggregate (p : Processor.t) (op : ReflectionOp.t) (k : ReflectionKind.t)
    (extra : list value) :
  anchored p ->
  Processor.program p + 1 = Z.of_nat (length ops) ->
  (op = ReflectionOp.objectLiteral /\ k = ReflectionKind.objectLiteral /\ extra = []) \/
  (op = ReflectionOp.class /\ k = ReflectionKind.class /\
   Processor.constructor_properties (Processor.world p) (fst (Processor.popFrame p))
   = Ret extra) ->
  exists p',
    exec op p = Ret p' /\
    Processor.program p' = Processor.program p /\
    Processor.resultType p' = Processor.resultType p /\
    top p' = VAnchor (Processor.resultType p) /\
    get_kind (Processor.world p') (VAnchor (Processor.resultType p)) = Ret (Some k) /\
    get_field (Processor.world p') (VAnchor (Processor.resultType p)) f_types
    = Ret (VArray (fst (Processor.popFrame p) ++ extra)).
Proof.
  intros Hanchor Hlast Hop.
  destruct (popFrame_keeps p) as (Hw & Hrt & Hpc).
  destruct Hanchor as [[k0 q0] Hanchor].
  destruct Hop as [(-> & -> & ->) | (-> & -> & Hextra)]; cbn [Processor.exec].
  - unfold Processor.exec_objectLiteral.
    destruct (Processor.popFrame p) as [types p1] eqn:Epop. cbn [fst snd] in *.
    destruct p1 as [s1 sp1 f1 pc1 rt1 ft1 reg1 w1]. proc_simpl. subst rt1 w1 pc1.
    replace (Processor.program p + 1 =? Z.of_nat (length ops)) with true
      by (symmetry; apply Z.eqb_eq; lia).
    unfold Processor.assign_resultType. proc_simpl. rewrite Hanchor. proc_simpl.
    eexists. split; [reflexivity|].
    unfold Processor.pushType. rewrite top_push. unfold Processor.push. proc_simpl.
    cbn [get_kind get_field World.anchors World.with_anchors].
    rewrite lookup_insert_eq, app_nil_r. repeat split; reflexivity.
  - unfold Processor.exec_class.
    destruct (Processor.popFrame p) as [types p1] eqn:Epop. cbn [fst snd] in *.
    destruct p1 as [s1 sp1 f1 pc1 rt1 ft1 reg1 w1]. proc_simpl. subst rt1 w1 pc1.
    rewrite Hextra. proc_simpl.
    replace (Processor.program p + 1 =? Z.of_nat (length ops)) with true
      by (symmetry; apply Z.eqb_eq; lia).
    unfold Processor.assign_resultType. proc_simpl. rewrite Hanchor. proc_simpl.
    destruct (negb (Z.of_nat (length (List.filter isType (Frame.inputs f1))) =? 0)).
    + unfold set_field. cbn [World.anchors World.with_anchors].
      rewrite lookup_insert_eq. proc_simpl.
      eexists. split; [reflexivity|].
      unfold Processor.pushType. rewrite top_push. unfold Processor.push. proc_simpl.
      cbn [get_kind get_field World.anchors World.with_anchors].
      rewrite lookup_insert_eq. repeat split; reflexivity.
    + proc_simpl. eexists. split; [reflexivity|].
      unfold Processor.pushType. rewrite top_push. unfold Processor.push. proc_simpl.
      cbn [get_kind get_field World.anchors World.with_anchors].
      rewrite lookup_insert_eq. repeat split; reflexivity.
Qed.

Lemma advance_keeps_resultType (n : nat) :
  forall p q,
    Processor.advance opcode isWithAnnotations nested ops initialStack initialInputs n p = Ret q ->
    Processor.resultType q = Processor.resultType p.
Proof.
  induction n as [|n IH]; intros p q H; cbn [Processor.advance] in H.
  - injection H as <-. reflexivity.
  - destruct (Processor.program p <? Z.of_nat (length ops)).
    + apply bind_ret_inv in H as (p1 & Hstep & H).
      apply step_keeps_resultType in Hstep. apply IH in H. congruence.
    + injection H as <-. reflexivity.
Qed.

(** C1, as the code has it.  Let the loop of [run], started in [p], have
    reached the state [q].  A self-reference in [q] is resolved without any
    evaluation: [inline] with a number in the pool, and [inlineCall] with a
    number and no arguments, push the [resultType] object of the processor
    in one step, whatever nested evaluations would do; and
    [resolveRuntimeType] for a program that is registered returns the
    [resultType] object of the registered processor at once.  When [q] is at
    the last opcode of the program and this opcode is [objectLiteral] or
    [class], the opcode assigns its kind and members to the [resultType]
    object and pushes it, and the run started in [p] returns that very
    object: the node pushed for a self-reference and the node returned are
    the same object. *)
Theorem self_reference_is_result_anchor (p q : Processor.t) (n : nat) (c : Z) :
  Processor.advance opcode isWithAnnotations nested ops initialStack initialInputs n p = Ret q ->
  lookupZ ops (Processor.program q) = Some c ->
  (forall ref z,
     opcode c = Some ReflectionOp.inline ->
     lookupZ ops (Processor.program q + 1) = Some ref ->
     call_if_function (pool_get initialStack (Some ref)) = VNumber z ->
     step q
     = Ret (Processor.with_program (Processor.program q + 2)
              (Processor.push (VAnchor (Processor.resultType p)) q))) /\
  (forall ref z,
     opcode c = Some ReflectionOp.inlineCall ->
     lookupZ ops (Processor.program q + 1) = Some ref ->
     lookupZ ops (Processor.program q + 2) = Some 0 ->
     call_if_function (pool_get initialStack (Some ref)) = VNumber z ->
     step q
     = Ret (Processor.with_program (Processor.program q + 3)
              (Processor.push (VAnchor (Processor.resultType p)) q))) /\
  (forall (run : Processor.evaluator) id pk (registry : gmap nat nat) existing args w,
     World.packs w !! id = Some pk ->
     truthy (Packed.__type pk) = false ->
     registry !! id = Some existing ->
     Processor.resolveRuntimeType run (VPacked id) args (Some registry) w
     = Ret (VAnchor existing, Some registry, w)) /\
  (forall m op k extra,
     opcode c = Some op ->
     anchored q ->
     Processor.program q + 1 = Z.of_nat (length ops) ->
     (op = ReflectionOp.objectLiteral /\ k = ReflectionKind.objectLiteral /\ extra = []) \/
     (op = ReflectionOp.class /\ k = ReflectionKind.class /\
      Processor.constructor_properties (Processor.world q) (fst (Processor.popFrame q))
      = Ret extra) ->
     exists q',
       Processor.iterate opcode isWithAnnotations nested ops initialStack initialInputs
         (n + S m) p = Ret q' /\
       narrowOriginalLiteral (top q') = VAnchor (Processor.resultType p) /\
       get_kind (Processor.world q') (VAnchor (Processor.resultType p)) = Ret (Some k) /\
       get_field (Processor.world q') (VAnchor (Processor.resultType p)) f_types
       = Ret (VArray (fst (Processor.popFrame q) ++ extra))).
Proof.
  intros Hreach Hc.
  pose proof (advance_keeps_resultType n p q Hreach) as Hrt. rewrite <- Hrt.
  split; [|split; [|split]].
  - intros ref z Hop Href Hnum.
    rewrite (step_exec q c _ Hc Hop).
    cbn [Processor.exec]. unfold Processor.exec_inline, Processor.eatParameter. proc_simpl.
    rewrite Href, Hnum. proc_simpl.
    destruct q as [stack sp f pc rt ft reg w]. unfold Processor.push. proc_simpl.
    replace (pc + 1 + 1) with (pc + 2) by lia. reflexivity.
  - intros ref z Hop Href Hsize Hnum.
    rewrite (step_exec q c _ Hc Hop).
    cbn [Processor.exec]. unfold Processor.exec_inlineCall, Processor.eatParameter.
    proc_simpl.
    replace (Processor.program q + 1 + 1) with (Processor.program q + 2) by lia.
    rewrite Hsize, Href. cbn [Processor.need mbind outcome_bind Z.to_nat Processor.collect_inputs].
    rewrite Hnum. cbn [Z.eqb mbind outcome_bind].
    destruct q as [stack sp f pc rt ft reg w]. unfold Processor.push.
    change (Z.to_nat 0) with O. cbn [Processor.collect_inputs]. proc_simpl.
    replace (pc + 2 + 1) with (pc + 3) by lia. reflexivity.
  - intros run id pk registry existing args w Hpack Hcache Hreg.
    unfold Processor.resolveRuntimeType. rewrite Hpack, Hcache.
    cbn [mbind option_bind]. unfold ProcessorRegistry.get. rewrite Hreg. reflexivity.
  - intros m op k extra Hop Hanchor Hlast Hcase.
    destruct (exec_last_aggregate q op k extra Hanchor Hlast Hcase)
      as (q' & Hexec & Hpc & _ & Htop & Hkind & Htypes).
    exists (Processor.with_program (Processor.program q' + 1) q').
    split; [|split; [|split]].
    + rewrite (iterate_advance n (S m) p q Hreach).
      apply iterate_last.
      * lia.
      * rewrite (step_exec q c _ Hc Hop), Hexec. reflexivity.
      * proc_simpl. lia.
    + unfold narrowOriginalLiteral. exact Htop.
    + exact Hkind.
    + exact Htypes.
Qed.

(** *** distribute *)

Section Distribution.

Variables (d body c : Z).
Variable result : value -> value.
Variable members : list value.
Variable F0 : Frame.t.

Hypothesis Hd : lookupZ ops d = Some c.
Hypothesis Hop : opcode c = Some ReflectionOp.distribute.
Hypothesis Hbody : lookupZ ops (d + 1) = Some body.
Hypothesis Hloop : Frame.distributiveLoop F0 = None.
Hypothesis Hvars : 1 <= Frame.variables F0.
Hypothesis Hbase : 0 <= Frame.startIndex F0 + Frame.variables F0 + 1.
Hypothesis Hmembers : forallb is_node members = true.
Hypothesis Hresult : forall m, In m members -> is_node (result m) = true.
Hypothesis body_returns :
  forall q start parent m,
    called d body start parent q ->
    stack_get (Processor.stack q) (Frame.startIndex parent + 1) = m ->
    Frame.startIndex parent + 1 < start ->
    0 <= start ->
    is_node m = true ->
    exists n q',
      Processor.advance opcode isWithAnnotations nested ops initialStack initialInputs n q
      = Ret q' /\
      returned d start parent (result m) q q'.

Local Abbreviation base := (Frame.startIndex F0 + Frame.variables F0 + 1).
Local Abbreviation advance :=
  (Processor.advance opcode isWithAnnotations nested ops initialStack initialInputs).

Lemma looping_fields (k : Z) :
  Frame.startIndex (looping members k F0) = Frame.startIndex F0 /\
  Frame.variables (looping members k F0) = Frame.variables F0 /\
  Frame.previous (looping members k F0) = Frame.previous F0 /\
  Frame.index (looping members k F0) = Frame.index F0 /\
  Frame.distributiveLoop (looping members k F0) = Some (Loop.mk (VArray members) k).
Proof. destruct F0. repeat split; reflexivity. Qed.

Lemma looping_again (k k' : Z) :
  Frame.with_distributiveLoop (Some (Loop.mk (VArray members) k')) (looping members k F0)
  = looping members k' F0.
Proof. destruct F0. reflexivity. Qed.

Lemma d_in_range : d < Z.of_nat (length ops).
Proof.
  unfold lookupZ in Hd. destruct (d <? 0) eqn:E; [discriminate|].
  apply Z.ltb_ge in E. apply lookup_lt_Some in Hd. lia.
Qed.

Lemma is_never_node (k : ReflectionKind.t) (q : props value) :
  is_never (VNode k q) = ReflectionKind.eqb k ReflectionKind.never.
Proof. destruct k; reflexivity. Qed.

(** The second block, when the loop has a next member. *)
Lemma distribute_next_call (p2 : Processor.t) (k : nat) (m : value) :
  Processor.frame p2 = looping members (Z.of_nat k) F0 ->
  members !! k = Some m ->
  Processor.distribute_next (Some body) p2
  = Ret (Processor.call body (-1)
           (Processor.with_stack (<[Frame.startIndex F0 + 1 := m]> (Processor.stack p2))
              (Processor.with_frame (looping members (Z.of_nat k + 1) F0) p2))).
Proof.
  intros Hframe Hm.
  assert (Hnode : is_node m = true).
  { rewrite forallb_forall in Hmembers. apply Hmembers.
    apply list_elem_of_In. by eapply list_elem_of_lookup_2. }
  destruct (looping_fields (Z.of_nat k)) as (Hs & _ & _ & _ & Hl).
  unfold Processor.distribute_next. rewrite Hframe, Hl.
  unfold Loop.next. cbn [Loop.types Loop.i as_array mbind outcome_bind].
  unfold lookupZ.
  replace (Z.of_nat k <? 0) with false by (symmetry; apply Z.ltb_ge; lia).
  rewrite Nat2Z.id, Hm. cbn [default].
  destruct m; try discriminate. cbn [Processor.is_undefined Processor.need mbind outcome_bind].
  proc_simpl. rewrite looping_again.
  destruct (looping_fields (Z.of_nat k + 1)) as (Hs' & _). rewrite Hs'.
  reflexivity.
Qed.

(** The second block, when the loop is exhausted. *)
Lemma distribute_next_end (target : option Z) (p2 : Processor.t) (acc : list value) :
  Processor.frame p2 = looping members (Z.of_nat (length members)) F0 ->
  slice (Processor.stack p2) base (Processor.stackPointer p2 + 1) = acc ->
  exists pf,
    Processor.distribute_next target p2 = Ret pf /\
    Processor.program pf = Processor.program p2 /\
    Processor.stackPointer pf = Frame.startIndex F0 + 1 /\
    top pf
    = unboxUnion (node ReflectionKind.union [(f_types, VArray (flattenUnionTypes acc))]) /\
    Processor.frame pf
    = match Frame.previous F0 with
      | Some f => f
      | None => looping members (Z.of_nat (length members) + 1) F0
      end.
Proof.
  intros Hframe Hslice.
  destruct (looping_fields (Z.of_nat (length members))) as (_ & _ & _ & _ & Hl).
  unfold Processor.distribute_next. rewrite Hframe, Hl.
  unfold Loop.next. cbn [Loop.types Loop.i as_array mbind outcome_bind].
  unfold lookupZ.
  replace (Z.of_nat (length members) <? 0) with false by (symmetry; apply Z.ltb_ge; lia).
  rewrite Nat2Z.id, lookup_ge_None_2 by lia.
  cbn [default Processor.is_undefined]. rewrite looping_again.
  destruct (looping_fields (Z.of_nat (length members) + 1)) as (Hs & Hv & Hp & _).
  unfold Processor.popFrame. proc_simpl. rewrite Hs, Hv, Hp, Hslice.
  destruct (Frame.previous F0) as [parent|]; proc_simpl;
    (eexists; split; [reflexivity|]);
    rewrite top_push; unfold Processor.push; proc_simpl; repeat split; reflexivity.
Qed.

(** The first block on re-entry: the pending result is accumulated unless
    it is [never]. *)
Lemma distribute_enter_again (p1 : Processor.t) (k : Z) (acc : list value) (r : value) :
  Processor.frame p1 = looping members k F0 ->
  Processor.stackPointer p1 = base + Z.of_nat (length acc) ->
  slice (Processor.stack p1) base (base + Z.of_nat (length acc)) = acc ->
  stack_get (Processor.stack p1) (base + Z.of_nat (length acc)) = r ->
  is_node r = true ->
  exists p2,
    Processor.distribute_enter p1 = Ret p2 /\
    Processor.frame p2 = looping members k F0 /\
    Processor.program p2 = Processor.program p1 /\
    Processor.stackPointer p2 + 1 = base + Z.of_nat (length (acc ++ kept r)) /\
    slice (Processor.stack p2) base (base + Z.of_nat (length (acc ++ kept r)))
    = acc ++ kept r.
Proof.
  intros Hframe Hsp Hslice Hr Hnode.
  destruct (looping_fields k) as (_ & _ & _ & _ & Hl).
  unfold Processor.distribute_enter, Processor.pop. rewrite Hframe, Hl, Hsp.
  replace (base + Z.of_nat (length acc) <? 0) with false
    by (symmetry; apply Z.ltb_ge; lia).
  proc_simpl. rewrite Hr.
  destruct r as [| | | | | | | | |kr qr|]; try discriminate.
  unfold kind_is. cbn [get_kind mbind outcome_bind].
  unfold kept. rewrite is_never_node.
  destruct (ReflectionKind.eqb kr ReflectionKind.never).
  - eexists. split; [reflexivity|]. proc_simpl. rewrite app_nil_r.
    repeat split; try assumption; lia.
  - eexists. split; [reflexivity|]. unfold Processor.push. proc_simpl.
    rewrite length_app. cbn [length].
    replace (base + Z.of_nat (length acc) - 1 + 1)
      with (base + Z.of_nat (length acc)) by lia.
    replace (base + Z.of_nat (length acc + 1))
      with (base + Z.of_nat (length acc) + 1) by lia.
    repeat split; try assumption.
    rewrite slice_snoc by lia. rewrite stack_get_insert_eq. f_equal.
    etransitivity; [|exact Hslice]. apply slice_ext. intros i Hi.
    apply stack_get_insert_ne. lia.
Qed.

(** The first block on first entry: the type is popped and the loop
    created. *)
Lemma distribute_enter_first (p1 : Processor.t) (T : value) :
  Processor.frame p1 = F0 ->
  Processor.stackPointer p1 = base ->
  top p1 = T ->
  distributes_over T members ->
  Processor.distribute_enter p1
  = Ret (Processor.with_frame (looping members 0 F0)
           (Processor.with_stackPointer (base - 1) p1)).
Proof.
  intros Hframe Hsp Htop Hover. unfold top in Htop.
  unfold Processor.distribute_enter, Processor.pop. rewrite Hframe, Hloop, Hsp.
  replace (base <? 0) with false by (symmetry; apply Z.ltb_ge; lia).
  proc_simpl. rewrite Hsp in Htop. rewrite Htop, Hframe.
  destruct Hover as [(q & -> & Hq) | (k & q & -> & Hk & ->)].
  - unfold Loop.new, kind_is. cbn [get_kind get_field mbind outcome_bind ReflectionKind.eqb].
    change (get_prop f_types q) with (p_types q). rewrite Hq. reflexivity.
  - unfold Loop.new, kind_is. cbn [get_kind mbind outcome_bind].
    rewrite (kind_eqb_false _ _ Hk). reflexivity.
Qed.

Lemma step_distribute (p p2 p3 : Processor.t) :
  Processor.program p = d ->
  Processor.distribute_enter (Processor.with_program (d + 1) p) = Ret p2 ->
  Processor.distribute_next (Some body) p2 = Ret p3 ->
  step p = Ret (Processor.with_program (Processor.program p3 + 1) p3).
Proof.
  intros Hpc Henter Hnext.
  assert (Hc : lookupZ ops (Processor.program p) = Some c) by (rewrite Hpc; exact Hd).
  rewrite (step_exec p c _ Hc Hop). cbn [Processor.exec].
  unfold Processor.exec_distribute, Processor.eatParameter. proc_simpl.
  rewrite Hpc, Hbody, Henter. proc_simpl. rewrite Hnext. reflexivity.
Qed.

(** One re-entry of [distribute] that finds a next member: the pending
    result is accumulated and the subprogram is entered for the member. *)
Lemma reenter_call (q1 : Processor.t) (k : nat) (m : value) (acc : list value) (r : value) :
  Processor.program q1 = d ->
  Processor.frame q1 = looping members (Z.of_nat k) F0 ->
  Processor.stackPointer q1 = base + Z.of_nat (length acc) ->
  slice (Processor.stack q1) base (base + Z.of_nat (length acc)) = acc ->
  stack_get (Processor.stack q1) (base + Z.of_nat (length acc)) = r ->
  is_node r = true ->
  members !! k = Some m ->
  exists q,
    step q1 = Ret q /\
    called d body (base + Z.of_nat (length (acc ++ kept r)))
      (looping members (Z.of_nat k + 1) F0) q /\
    stack_get (Processor.stack q) (Frame.startIndex F0 + 1) = m /\
    slice (Processor.stack q) base (base + Z.of_nat (length (acc ++ kept r)))
    = acc ++ kept r.
Proof.
  intros Hpc Hframe Hsp Hslice Hr Hnode Hm.
  destruct (distribute_enter_again (Processor.with_program (d + 1) q1) (Z.of_nat k) acc r)
    as (p2 & Henter & Hframe2 & Hpc2 & Hsp2 & Hslice2); try assumption.
  pose proof (distribute_next_call p2 k m Hframe2 Hm) as Hnext.
  eexists. split; [exact (step_distribute q1 p2 _ Hpc Henter Hnext)|].
  proc_simpl.
  unfold Processor.call, Processor.pushFrame, Processor.push. proc_simpl.
  set (n := Z.of_nat (length (acc ++ kept r))) in *.
  unfold called. proc_simpl. rewrite Hsp2.
  split; [|split].
  - repeat split; try lia.
    rewrite stack_get_insert_eq, Hpc2. f_equal. lia.
  - rewrite stack_get_insert_ne by lia. apply stack_get_insert_eq.
  - etransitivity; [|exact Hslice2]. apply slice_ext. intros i Hi.
    rewrite !stack_get_insert_ne by lia. reflexivity.
Qed.

(** The last re-entry of [distribute]: the pending result is accumulated
    and the frame is popped into the union. *)
Lemma reenter_end (q1 : Processor.t) (acc : list value) (r : value) :
  Processor.program q1 = d ->
  Processor.frame q1 = looping members (Z.of_nat (length members)) F0 ->
  Processor.stackPointer q1 = base + Z.of_nat (length acc) ->
  slice (Processor.stack q1) base (base + Z.of_nat (length acc)) = acc ->
  stack_get (Processor.stack q1) (base + Z.of_nat (length acc)) = r ->
  is_node r = true ->
  exists pf,
    step q1 = Ret pf /\ distribution_done d F0 members (acc ++ kept r) pf.
Proof.
  intros Hpc Hframe Hsp Hslice Hr Hnode.
  destruct (distribute_enter_again (Processor.with_program (d + 1) q1)
              (Z.of_nat (length members)) acc r)
    as (p2 & Henter & Hframe2 & Hpc2 & Hsp2 & Hslice2); try assumption.
  rewrite <- Hsp2 in Hslice2.
  destruct (distribute_next_end (Some body) p2 (acc ++ kept r) Hframe2 Hslice2)
    as (pf & Hnext & Hpcf & Hspf & Htopf & Hframef).
  eexists. split; [exact (step_distribute q1 p2 pf Hpc Henter Hnext)|].
  proc_simpl.
  unfold distribution_done, top in *. proc_simpl.
  repeat split; try assumption. lia.
Qed.

(** The loop, from the entry of the subprogram for the member [m] on. *)
Lemma distribute_loop (todo : list value) :
  forall (visited : list value) (m : value) (acc : list value) (q : Processor.t),
    members = visited ++ m :: todo ->
    called d body (base + Z.of_nat (length acc))
      (looping members (Z.of_nat (length visited) + 1) F0) q ->
    stack_get (Processor.stack q) (Frame.startIndex F0 + 1) = m ->
    slice (Processor.stack q) base (base + Z.of_nat (length acc)) = acc ->
    exists n pf,
      advance n q = Ret pf /\
      distribution_done d F0 members
        (acc ++ flat_map kept (result <$> (m :: todo))) pf.
Proof.
  induction todo as [|m' todo IH]; intros visited m acc q Hsplit Hcalled Hslot Hslice.
  - destruct (looping_fields (Z.of_nat (length visited) + 1)) as (Hs & _).
    assert (Hnode : is_node m = true).
    { rewrite forallb_forall in Hmembers. apply Hmembers.
      rewrite Hsplit. apply in_elt. }
    destruct (body_returns q _ _ m Hcalled) as (n & q1 & Hadv & Hret);
      [by rewrite Hs | rewrite Hs; lia | lia | exact Hnode |].
    destruct Hret as (Hpc1 & Hframe1 & Hsp1 & Hr1 & Hbelow).
    assert (Hlen : Z.of_nat (length visited) + 1 = Z.of_nat (length members)).
    { rewrite Hsplit, length_app. cbn [length]. lia. }
    rewrite Hlen in Hframe1.
    destruct (reenter_end q1 acc (result m) Hpc1 Hframe1 Hsp1) as (pf & Hstep & Hdone).
    { etransitivity; [|exact Hslice]. apply slice_ext. intros i Hi. apply Hbelow. lia. }
    { exact Hr1. }
    { apply Hresult. rewrite Hsplit. apply in_elt. }
    exists (n + 1)%nat, pf. split.
    + rewrite advance_add, Hadv. cbn [mbind outcome_bind].
      apply advance_one; [rewrite Hpc1; apply d_in_range|exact Hstep].
    + cbn [fmap list_fmap flat_map]. rewrite app_nil_r. exact Hdone.
  - destruct (looping_fields (Z.of_nat (length visited) + 1)) as (Hs & _).
    assert (Hnode : is_node m = true).
    { rewrite forallb_forall in Hmembers. apply Hmembers.
      rewrite Hsplit. apply in_elt. }
    destruct (body_returns q _ _ m Hcalled) as (n & q1 & Hadv & Hret);
      [by rewrite Hs | rewrite Hs; lia | lia | exact Hnode |].
    destruct Hret as (Hpc1 & Hframe1 & Hsp1 & Hr1 & Hbelow).
    replace (Z.of_nat (length visited) + 1) with (Z.of_nat (length (visited ++ [m])))
      in Hframe1 by (rewrite length_app; cbn [length]; lia).
    assert (Hm' : members !! length (visited ++ [m]) = Some m').
    { rewrite Hsplit.
      replace (visited ++ m :: m' :: todo) with ((visited ++ [m]) ++ m' :: todo)
        by (rewrite <- app_assoc; reflexivity).
      apply list_lookup_middle. reflexivity. }
    destruct (reenter_call q1 _ m' acc (result m) Hpc1 Hframe1 Hsp1)
      as (q2 & Hstep & Hcalled2 & Hslot2 & Hslice2); try assumption.
    { etransitivity; [|exact Hslice]. apply slice_ext. intros i Hi. apply Hbelow. lia. }
    { apply Hresult. rewrite Hsplit. apply in_elt. }
    destruct (IH (visited ++ [m]) m' (acc ++ kept (result m)) q2)
      as (n2 & pf & Hadv2 & Hdone); try assumption.
    { rewrite Hsplit, <- app_assoc. reflexivity. }
    exists (n + 1 + n2)%nat, pf. split.
    + rewrite advance_add, advance_add, Hadv. cbn [mbind outcome_bind].
      rewrite (advance_one q1 q2); [exact Hadv2|rewrite Hpc1; apply d_in_range|exact Hstep].
    + rewrite <- app_assoc in Hdone. exact Hdone.
Qed.

(** The whole of [distribute], from its first entry. *)
Lemma distribute_runs (p0 : Processor.t) (T : value) :
  Processor.program p0 = d ->
  Processor.frame p0 = F0 ->
  Processor.stackPointer p0 = base ->
  top p0 = T ->
  distributes_over T members ->
  exists n pf,
    advance n p0 = Ret pf /\
    distribution_done d F0 members (flat_map kept (result <$> members)) pf.
Proof.
  intros Hpc Hframe Hsp Htop Hover.
  pose proof (distribute_enter_first (Processor.with_program (d + 1) p0) T Hframe Hsp Htop
                Hover) as Henter.
  assert (Hcases : members = [] \/ exists m todo, members = m :: todo)
    by (destruct members; eauto).
  destruct Hcases as [Emembers | (m & todo & Emembers)].
  - destruct (distribute_next_end (Some body)
                (Processor.with_frame (looping members 0 F0)
                   (Processor.with_stackPointer (base - 1)
                      (Processor.with_program (d + 1) p0))) [])
      as (pf & Hnext & Hpcf & Hspf & Htopf & Hframef).
    { proc_simpl.
      replace (Z.of_nat (length members)) with 0 by (rewrite Emembers; reflexivity).
      reflexivity. }
    { apply slice_nil. proc_simpl. lia. }
    exists 1%nat, (Processor.with_program (Processor.program pf + 1) pf). split.
    + apply advance_one; [rewrite Hpc; apply d_in_range|].
      exact (step_distribute p0 _ pf Hpc Henter Hnext).
    + replace (flat_map kept (result <$> members)) with (@nil value)
        by (rewrite Emembers; reflexivity).
      unfold distribution_done, top in *. proc_simpl.
      repeat split; try assumption. lia.
  - assert (Hm : members !! 0%nat = Some m) by (rewrite Emembers; reflexivity).
    pose proof (distribute_next_call
                  (Processor.with_frame (looping members 0 F0)
                     (Processor.with_stackPointer (base - 1)
                        (Processor.with_program (d + 1) p0))) 0 m eq_refl Hm) as Hnext.
    pose proof (step_distribute p0 _ _ Hpc Henter Hnext) as Hstep.
    match type of Hstep with
    | _ = Ret ?q =>
        destruct (distribute_loop todo [] m [] q Emembers) as (n & pf & Hadv & Hdone)
    end.
    + unfold Processor.call, Processor.pushFrame, Processor.push; proc_simpl.
      unfold called. proc_simpl. cbn [length Z.of_nat].
      destruct (looping_fields (0 + 1)) as (_ & _ & _ & Hi & _).
      repeat split; try lia.
      * f_equal; lia.
      * replace (base - 1 + 1) with (base + Z.of_nat 0) by lia.
        rewrite stack_get_insert_eq. f_equal. lia.
    + unfold Processor.call, Processor.pushFrame, Processor.push; proc_simpl.
      rewrite stack_get_insert_ne by lia. apply stack_get_insert_eq.
    + apply slice_nil. cbn [length Z.of_nat]. lia.
    + exists (1 + n)%nat, pf. split.
      * rewrite advance_add, (advance_one p0 _ (ltac:(rewrite Hpc; apply d_in_range)) Hstep).
        exact Hadv.
      * replace (result <$> members) with (result <$> m :: todo)
          by (rewrite Emembers; reflexivity).
        exact Hdone.
Qed.

End Distribution.

Lemma flat_map_kept (results : list value) :
  flat_map kept results = List.filter (fun r => negb (is_never r)) results.
Proof.
  induction results as [|r rest IH]; [reflexivity|].
  cbn [flat_map List.filter]. rewrite IH. unfold kept.
  destruct (is_never r); reflexivity.
Qed.


End Opcodes.

(** ** Instances *)

(** The codes of [Op] are the positions of the opcodes in the numbering of
    the examples. *)
Example Op_codes_agree :
  opcode_of_spec
  <$> [Op.string; Op.number; Op.boolean; Op.never; Op.undefined; Op.null; Op.any; Op.literal;
       Op.class; Op.parameter; Op.union; Op.array; Op.property; Op.propertySignature;
       Op.method; Op.optional; Op.readonly; Op.public; Op.private; Op.objectLiteral;
       Op.distribute; Op.keyof; Op.var; Op.loads; Op.return_; Op.frame; Op.jump; Op.call;
       Op.inline; Op.inlineCall; Op.typeParameter; Op.typeParameterDefault]
  = Some
  <$> [ReflectionOp.string; ReflectionOp.number; ReflectionOp.boolean; ReflectionOp.never;
       ReflectionOp.undefined; ReflectionOp.null; ReflectionOp.any; ReflectionOp.literal;
       ReflectionOp.class; ReflectionOp.parameter; ReflectionOp.union; ReflectionOp.array;
       ReflectionOp.property; ReflectionOp.propertySignature; ReflectionOp.method;
       ReflectionOp.optional; ReflectionOp.readonly; ReflectionOp.public;
       ReflectionOp.private; ReflectionOp.objectLiteral; ReflectionOp.distribute;
       ReflectionOp.keyof; ReflectionOp.var; ReflectionOp.loads; ReflectionOp.return_;
       ReflectionOp.frame; ReflectionOp.jump; ReflectionOp.call; ReflectionOp.inline;
       ReflectionOp.inlineCall; ReflectionOp.typeParameter; ReflectionOp.typeParameterDefault].
Proof. reflexivity. Qed.

(** [class Entity { p: string }] *)
Example class_with_property :
  exists st,
    run_fresh 20 [Op.string; Op.property; 0; Op.class] [VString "p"] [] = Ret (VAnchor 0, st) /\
    World.anchors (Processor.world st) !! 0%nat
    = Some (ReflectionKind.class,
            assign [(f_classType, VClassType "Object");
                    (f_types,
                     VArray [node ReflectionKind.property
                               [(f_type, T_string); (f_name, VString "p");
                                (f_visibility, VVisibility ReflectionVisibility.public)]])]
                   no_props).
Proof. eexists. split; vm_compute; reflexivity. Qed.

(** [class Container<T> { data: T }] instantiated with [string] *)
Example generic_class :
  exists st,
    run_fresh 20 [Op.typeParameter; 0; Op.loads; 0; 0; Op.property; 1; Op.class]
      [VString "T"; VString "data"] [T_string] = Ret (VAnchor 0, st) /\
    World.anchors (Processor.world st) !! 0%nat
    = Some (ReflectionKind.class,
            assign [(f_classType, VClassType "Object");
                    (f_types,
                     VArray [node ReflectionKind.property
                               [(f_type, T_string); (f_name, VString "data");
                                (f_visibility, VVisibility ReflectionVisibility.public)]]);
                    (f_arguments, VArray [T_string])]
                   no_props).
Proof. eexists. split; vm_compute; reflexivity. Qed.

(** [class Entity { p?: ('a' | 'b')[] }] *)
Example optional_array_of_literals :
  exists st,
    run_fresh 20
      [Op.literal; 0; Op.literal; 1; Op.union; Op.array; Op.property; 2; Op.optional; Op.class]
      [VString "a"; VString "b"; VString "p"] [] = Ret (VAnchor 0, st) /\
    get_field (Processor.world st) (VAnchor 0) f_types
    = Ret (VArray [node ReflectionKind.property
                     [(f_type,
                       node ReflectionKind.array
                         [(f_type, T_union [T_literal (VString "a"); T_literal (VString "b")])]);
                      (f_name, VString "p");
                      (f_visibility, VVisibility ReflectionVisibility.public);
                      (f_optional, VBoolean true)]]).
Proof. eexists. split; vm_compute; reflexivity. Qed.

Lemma typeParameter_consumes_input_witness :
  0 <= Processor.stackPointer default_pushed /\
  exists p',
    Processor.exec annotated_kind nested_run
      [Op.number; Op.typeParameterDefault; 0] [VString "T"] []
      ReflectionOp.typeParameterDefault default_pushed = Ret p' /\
    top p' = T_number.
Proof.
  assert (H : 0 <= Processor.stackPointer default_pushed) by (vm_compute; discriminate).
  split; [exact H|].
  eexists. split.
  - exact (proj2 (typeParameter_consumes_input annotated_kind nested_run
                    [Op.number; Op.typeParameterDefault; 0] [VString "T"] []
                    default_pushed) H).
  - vm_compute. reflexivity.
Defined.

Lemma property_reduces_optional_witness :
  0 <= Processor.stackPointer optional_pushed /\
  exists q',
    Processor.exec annotated_kind nested_run
      [Op.string; Op.undefined; Op.union; Op.property; 0] [VString "p"] []
      ReflectionOp.property optional_pushed
    = Ret (Processor.push (VNode ReflectionKind.property q') (after_property optional_pushed)) /\
    get_prop f_type q' = T_string /\
    get_prop f_optional q' = VBoolean true.
Proof.
  assert (Hsp : 0 <= Processor.stackPointer optional_pushed) by (vm_compute; discriminate).
  split; [exact Hsp|].
  destruct (proj1 (property_reduces_optional annotated_kind nested_run
                     [Op.string; Op.undefined; Op.union; Op.property; 0] [VString "p"] []
                     false optional_pushed ReflectionKind.union
                     (assign [(f_types, VArray [T_string; T_undefined])] no_props)
                     Hsp eq_refl)
                  ReflectionKind.string ReflectionKind.undefined no_props no_props
                  eq_refl eq_refl)
    as (q' & Hexec & _ & Hreduced & _).
  exists q'. split; [exact Hexec|].
  apply Hreduced. repeat split; discriminate.
Defined.

(** C5 as stated fails on [null | undefined]: a two-element union that
    contains [undefined] is stored as it is, and [optional] stays unset. *)
Lemma property_keeps_null_or_undefined :
  exists q st,
    run_fresh 20 [Op.null; Op.undefined; Op.union; Op.property; 0] [VString "p"] []
    = Ret (VNode ReflectionKind.property q, st) /\
    get_prop f_type q = T_union [T_null; T_undefined] /\
    get_prop f_optional q = VUndefined /\
    get_prop f_type q <> T_null /\
    get_prop f_optional q <> VBoolean true.
Proof.
  eexists. eexists. split; [vm_compute; reflexivity|].
  repeat split; try reflexivity; discriminate.
Qed.

Lemma keyof_enumerates_names_witness :
  (0 <= Processor.stackPointer string_pushed /\
   Processor.exec annotated_kind nested_run [Op.keyof] [] [] ReflectionOp.keyof string_pushed
   = Ret (Processor.push (T_union [])
            (Processor.with_stackPointer (Processor.stackPointer string_pushed - 1)
               string_pushed))) /\
  (0 <= Processor.stackPointer object_pushed /\
   Processor.exec annotated_kind nested_run [Op.keyof] [] [] ReflectionOp.keyof object_pushed
   = Ret (Processor.push (T_union [T_literal (VString "a")])
            (Processor.with_stackPointer (Processor.stackPointer object_pushed - 1)
               object_pushed))).
Proof.
  assert (H1 : 0 <= Processor.stackPointer string_pushed) by (vm_compute; discriminate).
  assert (H2 : 0 <= Processor.stackPointer object_pushed) by (vm_compute; discriminate).
  split; (split; [assumption|]).
  - apply (proj1 (keyof_enumerates_names annotated_kind nested_run [Op.keyof] [] []
                    string_pushed H1) (Some ReflectionKind.string));
      [vm_compute; reflexivity | discriminate | discriminate].
  - refine (proj1 (proj2 (keyof_enumerates_names annotated_kind nested_run [Op.keyof] [] []
                            object_pushed H2))
                  ReflectionKind.objectLiteral members_with_index _ _ _ _);
      [vm_compute; reflexivity | left; reflexivity | vm_compute; reflexivity | reflexivity].
Defined.

Lemma class_projects_constructor_witness :
  anchored constructor_pushed /\
  exists p',
    Processor.exec annotated_kind nested_run [Op.class] [] [] ReflectionOp.class
      constructor_pushed = Ret p' /\
    get_field (Processor.world p') (top p') f_types
    = Ret (VArray
             [VNode ReflectionKind.method constructor_props;
              node ReflectionKind.property
                [(f_name, VString "a");
                 (f_visibility, VVisibility ReflectionVisibility.private);
                 (f_type, T_string); (f_optional, VBoolean true)]]).
Proof.
  assert (Ha : anchored constructor_pushed) by (vm_compute; eauto).
  split; [exact Ha|].
  destruct (proj1 (class_projects_constructor annotated_kind nested_run [Op.class] [] []
                     constructor_pushed [] [] [parameter_a; parameter_b] constructor_props
                     Ha eq_refl eq_refl eq_refl eq_refl eq_refl eq_refl))
    as (p' & Hexec & _ & Htypes).
  exists p'. split; [exact Hexec|exact Htypes].
Defined.

Lemma call_return_convention_witness :
  (exists p',
     Processor.step opcode_of_spec annotated_kind nested_run call_program [] [] before_call
     = Ret p' /\
     Processor.program p' = 3 /\
     Frame.startIndex (Processor.frame p') = Processor.stackPointer before_call + 1 /\
     stack_get (Processor.stack p') (Frame.startIndex (Processor.frame p')) = VNumber 2) /\
  (exists p',
     Processor.step opcode_of_spec annotated_kind nested_run call_program [] [] before_return
     = Ret p' /\
     Processor.program p' = 2 /\
     Processor.frame p' = Processor.frame before_call /\
     Processor.stackPointer p' = Processor.stackPointer before_call + 1 /\
     top p' = T_string).
Proof.
  pose proof (call_return_convention opcode_of_spec annotated_kind nested_run call_program
                [] [] before_call Op.call eq_refl) as (Hcall & _ & Hround).
  split.
  - eexists. split; [exact (Hcall 3 eq_refl eq_refl)|].
    repeat split; vm_compute; reflexivity.
  - eexists. split.
    + refine (Hround 3 before_return Op.return_ eq_refl eq_refl eq_refl eq_refl eq_refl _ _).
      * vm_compute. reflexivity.
      * vm_compute. discriminate.
    + repeat split; vm_compute; reflexivity.
Defined.

(** The three malformed programs of the examples: an opcode that pops from
    the empty stack, a number that is no opcode, a pool index out of
    range. *)
Lemma malformed_program_behaviour_witness :
  Processor.step opcode_of_spec annotated_kind nested_run [Op.array] [] [] (entered_with [] [])
  = Throw (Error "Stack empty") /\
  Processor.step opcode_of_spec annotated_kind nested_run [200] [] [] (entered_with [] [])
  = Ret (Processor.with_program 1 (entered_with [] [])) /\
  Processor.step opcode_of_spec annotated_kind nested_run [Op.literal; 5] [] []
    (entered_with [] [])
  = Ret (Processor.with_program 2
           (Processor.push (T_literal VUndefined) (entered_with [] []))).
Proof.
  split; [|split].
  - refine (proj1 (proj2 (proj1 (malformed_program_behaviour opcode_of_spec annotated_kind
                                   nested_run [Op.array] [] [] (entered_with [] []) Op.array
                                   eq_refl) _ eq_refl)));
      vm_compute; reflexivity.
  - exact (proj1 (proj2 (malformed_program_behaviour opcode_of_spec annotated_kind
                           nested_run [200] [] [] (entered_with [] []) 200 eq_refl))
                 eq_refl).
  - refine (proj2 (proj2 (malformed_program_behaviour opcode_of_spec annotated_kind
                            nested_run [Op.literal; 5] [] [] (entered_with [] []) Op.literal
                            eq_refl)) 5 eq_refl eq_refl _).
    right. vm_compute. discriminate.
Defined.

(** C9 as stated fails: a program with a number that is no opcode, and a
    program whose pool index is out of range, run to completion and return
    a type; no failure is raised. *)
Lemma malformed_program_returns :
  opcode_of_spec 200 = None /\
  (exists st, run_fresh 20 [Op.string; 200] [] [] = Ret (T_string, st)) /\
  (exists st, run_fresh 20 [Op.literal; 5] [] [] = Ret (T_literal VUndefined, st)) /\
  (forall e, run_fresh 20 [Op.string; 200] [] [] <> Throw e) /\
  (forall e, run_fresh 20 [Op.literal; 5] [] [] <> Throw e).
Proof.
  split; [reflexivity|].
  split; [eexists; vm_compute; reflexivity|].
  split; [eexists; vm_compute; reflexivity|].
  split; intros e; vm_compute; discriminate.
Qed.

(** C8 on the code.  [keyof {a: string}] evaluates to a union with the
    single member ['a']: [keyof] pushes its union without [unboxUnion],
    unlike [union] and [distribute], and the run returns it as final node. *)
Theorem keyof_returns_single_member_union :
  exists st,
    run_fresh 20 [Op.string; Op.propertySignature; 0; Op.objectLiteral; Op.keyof]
      [VString "a"] []
    = Ret (T_union [T_literal (VString "a")], st) /\
    unboxUnion (T_union [T_literal (VString "a")]) = T_literal (VString "a") /\
    T_union [T_literal (VString "a")] <> T_literal (VString "a").
Proof.
  eexists. split; [vm_compute; reflexivity|].
  split; [reflexivity|discriminate].
Qed.

(** The recursive interface [Tree] resolves to its result anchor, whose
    member [children] is an array of that same anchor. *)
Example tree_is_cyclic :
  exists w,
    Processor.resolvePacked opcode_of_spec annotated_kind 20 (VPacked 0) [] tree_world
    = Ret (VAnchor 0, w) /\
    World.anchors w !! 0%nat
    = Some (ReflectionKind.objectLiteral,
            assign [(f_types, VArray [tree_value; tree_children (VAnchor 0)])] no_props).
Proof.
  eexists. split; vm_compute; reflexivity.
Qed.

Lemma self_reference_is_result_anchor_witness :
  Processor.step opcode_of_spec annotated_kind nested_run tree_ops tree_pool []
    tree_before_inline
  = Ret (Processor.with_program 5 (Processor.push (VAnchor 0) tree_before_inline)) /\
  Processor.step opcode_of_spec annotated_kind nested_run [Op.inlineCall; 0; 0] [VNumber 0] []
    (entered_with [VNumber 0] [])
  = Ret (Processor.with_program 3
           (Processor.push (VAnchor 0) (entered_with [VNumber 0] []))) /\
  Processor.resolveRuntimeType nested_run (VPacked 0) [] (Some {[ 0%nat := 7%nat ]}) tree_world
  = Ret (VAnchor 7, Some {[ 0%nat := 7%nat ]}, tree_world) /\
  exists q',
    Processor.iterate opcode_of_spec annotated_kind nested_run tree_ops tree_pool [] 6
      (entered_with tree_pool []) = Ret q' /\
    narrowOriginalLiteral (top q') = VAnchor 0 /\
    get_field (Processor.world q') (VAnchor 0) f_types
    = Ret (VArray [tree_value; tree_children (VAnchor 0)]).
Proof.
  assert (Hinline :
    Processor.advance opcode_of_spec annotated_kind nested_run tree_ops tree_pool [] 2
      (entered_with tree_pool []) = Ret tree_before_inline) by (vm_compute; reflexivity).
  assert (Hlast :
    Processor.advance opcode_of_spec annotated_kind nested_run tree_ops tree_pool [] 5
      (entered_with tree_pool []) = Ret tree_before_last) by (vm_compute; reflexivity).
  assert (Hcall :
    Processor.advance opcode_of_spec annotated_kind nested_run [Op.inlineCall; 0; 0]
      [VNumber 0] [] 0 (entered_with [VNumber 0] []) = Ret (entered_with [VNumber 0] []))
    by reflexivity.
  split; [|split; [|split]].
  - exact (proj1 (self_reference_is_result_anchor opcode_of_spec annotated_kind nested_run
                    tree_ops tree_pool [] _ _ _ Op.inline Hinline eq_refl)
                 1 0 eq_refl eq_refl eq_refl).
  - exact (proj1 (proj2 (self_reference_is_result_anchor opcode_of_spec annotated_kind
                           nested_run [Op.inlineCall; 0; 0] [VNumber 0] [] _ _ _
                           Op.inlineCall Hcall eq_refl))
                 0 0 eq_refl eq_refl eq_refl eq_refl).
  - refine (proj1 (proj2 (proj2 (self_reference_is_result_anchor opcode_of_spec
                                   annotated_kind nested_run tree_ops tree_pool [] _ _ _
                                   Op.inline Hinline eq_refl)))
                  nested_run 0%nat _ {[ 0%nat := 7%nat ]} 7%nat [] tree_world _ _ _);
      vm_compute; reflexivity.
  - assert (Ha : anchored tree_before_last) by (vm_compute; eauto).
    destruct (proj2 (proj2 (proj2 (self_reference_is_result_anchor opcode_of_spec
                                     annotated_kind nested_run tree_ops tree_pool [] _ _ _
                                     Op.objectLiteral Hlast eq_refl)))
                    O ReflectionOp.objectLiteral ReflectionKind.objectLiteral []
                    eq_refl Ha eq_refl (or_introl (conj eq_refl (conj eq_refl eq_refl))))
      as (q' & Hrun & Htop & _ & Htypes).
    exists q'. split; [exact Hrun|]. split; [exact Htop|].
    etransitivity; [exact Htypes|]. vm_compute. reflexivity.
Defined.

(** Without a registry the outermost processor is not registered: a
    program that refers to itself through a function of its pool is then
    evaluated once more by a second, registered processor, and the
    self-reference inside the returned node is the anchor of that second
    processor. *)
Example reentrant_resolution_without_registry :
  exists w types,
    Processor.resolvePacked opcode_of_spec annotated_kind 20 (VPacked 0) [] thunk_world
    = Ret (VAnchor 0, w) /\
    get_field w (VAnchor 0) f_types = Ret (VArray [types]) /\
    get_field w types f_type = Ret (node ReflectionKind.array [(f_type, VAnchor 1)]).
Proof.
  eexists. eexists. split; [vm_compute; reflexivity|].
  split; vm_compute; reflexivity.
Qed.

(** With a registry the outermost processor is registered and the
    self-reference is its anchor. *)
Example reentrant_resolution_with_registry :
  exists w types,
    Processor.resolveRuntimeType (Processor.run opcode_of_spec annotated_kind 20)
      (VPacked 0) [] (Some ∅) thunk_world
    = Ret (VAnchor 0, Some ∅, w) /\
    get_field w (VAnchor 0) f_types = Ret (VArray [types]) /\
    get_field w types f_type = Ret (node ReflectionKind.array [(f_type, VAnchor 0)]).
Proof.
  eexists. eexists. split; [vm_compute; reflexivity|].
  split; vm_compute; reflexivity.
Qed.

(** C1 as stated fails on a program that refers to itself and does not end
    with [objectLiteral] or [class]: the node pushed for the self-reference
    is the result anchor, the node returned is the array node built around
    it, and the anchor stays the [any] node it was allocated as. *)
Lemma self_reference_differs_from_result :
  exists w,
    Processor.resolvePacked opcode_of_spec annotated_kind 20 (VPacked 0) [] alias_world
    = Ret (node ReflectionKind.array [(f_type, VAnchor 0)], w) /\
    World.anchors w !! 0%nat = Some (ReflectionKind.any, no_props) /\
    node ReflectionKind.array [(f_type, VAnchor 0)] <> VAnchor 0.
Proof.
  eexists. split; [vm_compute; reflexivity|].
  split; [vm_compute; reflexivity|discriminate].
Qed.

(** Nor does every self-reference terminate: [inlineCall] with the number
    in the pool and one argument runs the same program in a new processor,
    which reaches the same opcode again; no amount of fuel suffices. *)
Lemma self_call_with_arguments_diverges (fuel : nat) :
  forall (p : Processor.t) (inputs : list value),
    Processor.run opcode_of_spec annotated_kind fuel p self_call_ops [VNumber 0] inputs
    = OutOfFuel.
Proof.
  induction fuel as [|fuel IH]; intros p inputs; [reflexivity|].
  cbn [Processor.run]. unfold Processor.run_with.
  destruct p as [stack sp f pc rt ft reg w].
  unfold Processor.enter. proc_simpl.
  change (Z.of_nat (length [VNumber 0]) - 1) with 0.
  cbn [Processor.copy_from].
  cbn [Processor.iterate].
  change (Processor.program _ <? Z.of_nat (length self_call_ops)) with true. cbn match.
  unfold Processor.step at 1. proc_simpl.
  change (lookupZ self_call_ops 0 ≫= opcode_of_spec) with (Some ReflectionOp.never).
  cbn [Processor.exec]. unfold Processor.pushType, Processor.push. proc_simpl.
  destruct fuel as [|fuel']; [reflexivity|].
  cbn [Processor.iterate]. proc_simpl.
  change (0 + 1 <? Z.of_nat (length self_call_ops)) with true. cbn match.
  unfold Processor.step. proc_simpl.
  change (lookupZ self_call_ops (0 + 1) ≫= opcode_of_spec) with (Some ReflectionOp.inlineCall).
  cbn [Processor.exec]. 
  unfold Processor.exec_inlineCall, Processor.eatParameter. proc_simpl.
  change (lookupZ self_call_ops (0 + 1 + 1)) with (Some 0).
  change (lookupZ self_call_ops (0 + 1 + 1 + 1)) with (Some 1).
  cbn [Processor.need mbind outcome_bind]. change (Z.to_nat 1) with 1%nat.
  cbn [Processor.collect_inputs]. unfold Processor.pop. proc_simpl.
  change (0 + 1 <? 0) with false. cbn match. proc_simpl.
  unfold stack_get. rewrite lookup_insert_eq.
  cbn [default id kind_is get_kind node mbind outcome_bind].
  change (call_if_function (pool_get [VNumber 0] (Some 0))) with (VNumber 0).
  change (1 =? 0) with false. cbn match.
  rewrite IH. reflexivity.
Qed.

(** The subprogram [loads 1 0; return] of [distribute_ops] returns the
    member in the first slot of its caller's frame. *)
Lemma identity_subprogram_returns (q : Processor.t) (start : Z) (parent : Frame.t) (m : value) :
  called 13 2 start parent q ->
  stack_get (Processor.stack q) (Frame.startIndex parent + 1) = m ->
  Frame.startIndex parent + 1 < start ->
  0 <= start ->
  is_node m = true ->
  exists n q',
    Processor.advance opcode_of_spec annotated_kind nested_run distribute_ops distribute_pool
      distribute_inputs n q = Ret q' /\
    returned 13 start parent m q q'.
Proof.
  intros (Hpc & Hframe & Hsp & Hra) Hm Hlt Hstart _.
  destruct q as [stack sp f pc rt ft reg w]. proc_simpl. subst pc f sp.
  exists 2%nat. eexists. split.
  - cbn [Processor.advance]. proc_simpl.
    change (2 <? Z.of_nat (length distribute_ops)) with true. cbn match.
    unfold Processor.step. proc_simpl.
    change (lookupZ distribute_ops 2 ≫= opcode_of_spec) with (Some ReflectionOp.loads).
    cbn [Processor.exec]. unfold Processor.exec_loads, Processor.eatParameter. proc_simpl.
    change (lookupZ distribute_ops (2 + 1)) with (Some 1).
    change (lookupZ distribute_ops (2 + 1 + 1)) with (Some 0).
    cbn [default id]. change (Z.to_nat 1) with 1%nat.
    cbn [Frame.ancestor Frame.previous mbind outcome_bind].
    unfold Processor.push. proc_simpl.
    change (2 + 1 + 1 + 1 <? Z.of_nat (length distribute_ops)) with true. cbn match.
    change (lookupZ distribute_ops (2 + 1 + 1 + 1) ≫= opcode_of_spec)
      with (Some ReflectionOp.return_).
    cbn [Processor.exec]. unfold Processor.returnFrame, Processor.pop. proc_simpl.
    replace (start + 1 <? 0) with false by (symmetry; apply Z.ltb_ge; lia).
    proc_simpl. cbn [Frame.startIndex Frame.previous].
    rewrite stack_get_insert_ne by lia. rewrite Hra.
    unfold Processor.push. proc_simpl. cbn [Frame.previous]. proc_simpl.
    reflexivity.
  - unfold returned. proc_simpl.
    rewrite stack_get_insert_eq.
    replace (Frame.startIndex parent + 1 + 0) with (Frame.startIndex parent + 1) by lia.
    replace (start - 1 + 1) with start by lia.
    rewrite stack_get_insert_eq.
    repeat split; try reflexivity; try assumption.
    intros i Hi. rewrite !stack_get_insert_ne by lia. reflexivity.
Qed.


(** The same program run as a whole. *)
Example distribute_example :
  exists st,
    run_fresh 40 distribute_ops distribute_pool distribute_inputs
    = Ret (T_union [T_string; T_number], st).
Proof. eexists. vm_compute. reflexivity. Qed.
